(** * Azure Table Storage repository: a model of
      [src/lib/table-storage/azure-table.repository.ts] and of the
      connection service ([AzureTableStorageService]).

    The TypeScript classes are embedded shallowly:
    - JavaScript values that the code inspects dynamically (error
      payloads, entities) are an inductive type [jsval]; objects are
      association lists in property-insertion order;
    - [async] methods become computations in a state-and-exception
      monad over a [World] holding the memoised client handles, the log
      of client constructions and the log of backend calls;
    - the Azure SDK is an oracle [Backend]: its client factories, which
      may throw, and the methods of its clients; the entity mapper
      [AzureEntityMapper.serialize] is a parameter.
    Calls to [logger] only emit text and are left out. *)

From Stdlib Require Import String Ascii List ZArith Bool Lia.
Import ListNotations.
Local Open Scope string_scope.
Local Set Warnings "-register-all".

(* ================================================================= *)
(** ** JavaScript values *)

Module Js.

(** The fragment of JavaScript values the repository can observe.
    Numbers only occur as status codes, so integers suffice. *)
Inductive jsval : Type :=
| JUndefined
| JNull
| JBool (b : bool)
| JNum (n : Z)
| JStr (s : string)
| JObj (fields : list (string * jsval)).

(** A plain object: own enumerable properties, in insertion order. *)
Definition obj : Type := list (string * jsval).

(** Own-property lookup: the first binding of [k]. *)
Fixpoint lookup (k : string) (o : obj) : option jsval :=
  match o with
  | [] => None
  | (k', v) :: rest => if String.eqb k k' then Some v else lookup k rest
  end.

(** [o.hasOwnProperty(k)]. *)
Definition hasOwnProperty (o : obj) (k : string) : bool :=
  match lookup k o with Some _ => true | None => false end.

(** [o[k] = v]: overwrite the property where it stands, or append it. *)
Fixpoint set_prop (o : obj) (k : string) (v : jsval) : obj :=
  match o with
  | [] => [(k, v)]
  | (k', v') :: rest =>
      if String.eqb k k' then (k', v) :: rest
      else (k', v') :: set_prop rest k v
  end.

(** [Object.entries(o).length]. *)
Definition entries_length (o : obj) : nat := length o.

(** [v[k]] for a property name [k] that no prototype defines (the
    code only reads [odataError], [code], [message] and [value]):
    reading a property of [undefined] or [null] is a [TypeError]
    ([None]); an object yields its own property or [undefined]; the
    other primitives yield [undefined]. *)
Definition get_prop (v : jsval) (k : string) : option jsval :=
  match v with
  | JUndefined | JNull => None
  | JObj fields =>
      match lookup k fields with
      | Some x => Some x
      | None => Some JUndefined
      end
  | JBool _ | JNum _ | JStr _ => Some JUndefined
  end.

(** [s.startsWith('{')]. *)
Definition startsWith_brace (s : string) : bool :=
  match s with
  | String c _ => Ascii.eqb c "{"%char
  | EmptyString => false
  end.

Definition newline : ascii := "010"%char.

(** Whether a string holds a line break. *)
Fixpoint has_newline (s : string) : bool :=
  match s with
  | EmptyString => false
  | String c rest => Ascii.eqb c newline || has_newline rest
  end.

(** [lines.join('\n')]. *)
Definition join_newline (lines : list string) : string :=
  String.concat (String newline EmptyString) lines.

(** [s.split('\n')]: the maximal newline-free pieces of [s], in order;
    the empty string splits into one empty piece. *)
Fixpoint split_newline (s : string) : list string :=
  match s with
  | EmptyString => [EmptyString]
  | String c rest =>
      if Ascii.eqb c newline then EmptyString :: split_newline rest
      else match split_newline rest with
           | [] => [String c EmptyString]
           | piece :: pieces => String c piece :: pieces
           end
  end.

End Js.
Import Js.

(* ================================================================= *)
(** ** Errors *)

(** The SDK's [RestError] as far as the repository reads it:
    [message], [details] (typed [unknown]) and the optional
    [statusCode]. *)
Record RestError : Type := mkRestError {
  rest_message : string;
  rest_details : jsval;
  rest_statusCode : option Z
}.

(** [CustomError(message, code, statusCode)], the typed domain error.
    The code is whatever value was found in the payload. *)
Record CustomError : Type := mkCustomError {
  message : string;
  code : jsval;
  statusCode : option Z
}.

(** What an operation can throw. *)
Inductive thrown : Type :=
| ThrownRest (e : RestError)          (* a backend error object itself *)
| ThrownError (msg : string)          (* [new Error(msg)] *)
| ThrownTypeError                     (* raised by the runtime *)
| ThrownCustom (c : CustomError).     (* a classified domain error *)

(** The [statusCode] and [details] properties a caller can read off a
    thrown value; a plain [Error] has neither. *)
Definition thrown_statusCode (t : thrown) : option Z :=
  match t with
  | ThrownRest e => rest_statusCode e
  | ThrownCustom c => statusCode c
  | ThrownError _ | ThrownTypeError => None
  end.

Definition thrown_details (t : thrown) : jsval :=
  match t with
  | ThrownRest e => rest_details e
  | ThrownError _ | ThrownTypeError | ThrownCustom _ => JUndefined
  end.

Definition is_domain_error (t : thrown) : bool :=
  match t with ThrownCustom _ => true | _ => false end.

(** Completion of a call: a value, or an exception of type [E]. *)
Inductive outcome (E A : Type) : Type :=
| Returned (a : A)
| Threw (e : E).
Arguments Returned {E A} a.
Arguments Threw {E A} e.

(* ================================================================= *)
(** ** The error classifier, [handleRestErrors] *)

Module Classifier.

(** [error.details['odataError'][k]]. *)
Definition odata_field (error : RestError) (k : string) : option jsval :=
  match get_prop (rest_details error) "odataError" with
  | Some od => get_prop od k
  | None => None
  end.

(** [error.details['odataError']['message']['value']]. *)
Definition odata_message_value (error : RestError) : option jsval :=
  match odata_field error "message" with
  | Some m => get_prop m "value"
  | None => None
  end.

(** [(...)['value'].split('\n')]; [split] exists on strings only. *)
Definition odata_message_lines (error : RestError) : option (list string) :=
  match odata_message_value error with
  | Some (JStr body) => Some (split_newline body)
  | _ => None
  end.

(** The [forEach] of the [InvalidInput] case: [errorMessage += line]. *)
Definition append_lines (errorMessage : string) (lines : list string) : string :=
  fold_left (fun acc line => acc ++ line) lines errorMessage.

(** The case labels of the [switch]. *)
Definition known_codes : list string :=
  [ "TableAlreadyExists"; "TableNotFound"; "ResourceNotFound";
    "InvalidInput"; "TableBeingDeleted"; "EntityAlreadyExists" ].

(** The [switch (errorCode)]; cases compare with [===], so only a
    string value can select a named case. *)
Definition switch_errorCode (tableName : string) (error : RestError)
    (errorCode : jsval) : option string :=
  match errorCode with
  | JStr c =>
      if String.eqb c "TableAlreadyExists" then
        Some ("Error creating table. Table " ++ tableName ++ " already exists.")
      else if String.eqb c "TableNotFound" then
        Some ("Error creating entity. Table " ++ tableName ++ " Not Found. Is it created?")
      else if String.eqb c "ResourceNotFound" then
        Some "Error processing entity. Entity not found."
      else if String.eqb c "InvalidInput" then
        match odata_message_lines error with
        | Some lines => Some (append_lines "Error creating entity:" lines)
        | None => None
        end
      else if String.eqb c "TableBeingDeleted" then
        Some ("Error creating entity. Table " ++ tableName ++ " is being deleted. Try again later.")
      else if String.eqb c "EntityAlreadyExists" then
        Some "Error creating entity. Entity with the same partitionKey and rowKey already exists."
      else Some (rest_message error)
  | _ => Some (rest_message error)
  end.

Definition handleRestErrors (tableName : string) (error : RestError)
    : outcome thrown CustomError :=
  if negb (startsWith_brace (rest_message error)) then
    Threw (ThrownError (rest_message error))
  else
    match odata_field error "code" with
    | None => Threw ThrownTypeError
    | Some errorCode =>
        match switch_errorCode tableName error errorCode with
        | None => Threw ThrownTypeError
        | Some errorMessage =>
            Returned (mkCustomError errorMessage errorCode (rest_statusCode error))
        end
    end.

End Classifier.
Import Classifier.
(* ================================================================= *)
(** ** Client handles and the connection service *)

(** Client objects of the SDK.  A client records the arguments it was
    built from; [*_id] is the object's identity (its allocation
    number), so that two clients built from equal arguments are still
    two objects. *)
Record TableServiceClient : Type := mkTableServiceClient {
  tsc_id : nat;
  tsc_connectionString : option string
}.

Record TableClient : Type := mkTableClient {
  tc_id : nat;
  tc_connectionString : option string;
  tc_tableName : string;
  tc_allowInsecureConnection : bool
}.

(** One call of an SDK factory. *)
Inductive Construction : Type :=
| BuiltServiceClient (c : TableServiceClient)
| BuiltTableClient (c : TableClient).

(** One call of a backend method on a client. *)
Inductive BackendCall : Type :=
| CallCreateTable (h : TableServiceClient) (tableName : option string)
| CallGetEntity (h : TableClient) (partitionKey rowKey : string)
| CallListEntities (h : TableClient) (queryOptions : jsval)
| CallCreateEntity (h : TableClient) (entity : obj)
| CallUpdateEntity (h : TableClient) (entity : obj)
| CallDeleteEntity (h : TableClient) (partitionKey rowKey : string).

(** The fields of an [AzureTableStorageService] instance; an unset
    private field is [None] (falsy), a client object is truthy. *)
Record AzureTableStorageService : Type := mkService {
  svc_tableName : string;
  tableServiceClient : option TableServiceClient;
  tableClient : option TableClient
}.

(** The state the code runs in. *)
Record World : Type := mkWorld {
  (* process.env.AZURE_STORAGE_CONNECTION_STRING *)
  env_AZURE_STORAGE_CONNECTION_STRING : option string;
  (* the service instance the repository was given *)
  manager : AzureTableStorageService;
  (* every factory call so far, oldest first *)
  constructions : list Construction;
  (* every backend call so far, oldest first *)
  calls : list BackendCall
}.

(** A freshly injected service: no client built yet. *)
Definition new_service (tableName : string) : AzureTableStorageService :=
  mkService tableName None None.

Definition new_world (env : option string) (tableName : string) : World :=
  mkWorld env (new_service tableName) [] [].

(** Computations: state passing with exceptions of type [E].  Code
    inside a [try] block can only fail where it calls the backend, so
    it runs with [E := RestError]; a whole method runs with
    [E := thrown]. *)
Definition M (E A : Type) : Type := World -> outcome E A * World.

Definition ret {E A} (a : A) : M E A := fun w => (Returned a, w).
Definition throw {E A} (e : E) : M E A := fun w => (Threw e, w).
Definition bind {E A B} (m : M E A) (k : A -> M E B) : M E B :=
  fun w =>
    match m w with
    | (Returned a, w') => k a w'
    | (Threw e, w') => (Threw e, w')
    end.
(** [try { m } catch (error) { handler error }]. *)
Definition try_catch {E E' A} (m : M E A) (handler : E -> M E' A) : M E' A :=
  fun w =>
    match m w with
    | (Returned a, w') => (Returned a, w')
    | (Threw e, w') => handler e w'
    end.

Declare Scope js_scope.
Delimit Scope js_scope with js.
Notation "x <- m ;; k" := (bind m (fun x => k))
  (at level 61, m at next level, right associativity) : js_scope.
Local Open Scope js_scope.

(* ================================================================= *)
(** ** The SDK *)

(** Answer of a backend method: a raw result, or a raised error. *)
Inductive response (A : Type) : Type :=
| Ok (a : A)
| Fail (e : RestError).
Arguments Ok {A} a.
Arguments Fail {A} e.

(** The SDK as an oracle.
    The two factories ([TableServiceClient.fromConnectionString] and
    [TableClient.fromConnectionString]) answer [None] when they accept
    their arguments and return a new client, and [Some e] when they
    throw the error object [e] (as they do for a connection string
    that is unset or malformed).
    The other fields are the clients' methods; [listEntities] answers
    lazily: the records the iterator yields, and the error, if any, it
    raises once they are consumed. *)
Record Backend : Type := mkBackend {
  serviceClientFromConnectionString : option string -> option RestError;
  tableClientFromConnectionString :
    option string -> string -> bool -> option RestError;
  createTable : TableServiceClient -> option string -> response unit;
  getEntity : TableClient -> string -> string -> response obj;
  listEntities : TableClient -> jsval -> list obj * option RestError;
  createEntity : TableClient -> obj -> response obj;
  updateEntity : TableClient -> obj -> response obj;
  deleteEntity : TableClient -> string -> string -> response jsval
}.

Module Service.

Definition set_tableServiceClient (c : TableServiceClient) (w : World) : World :=
  mkWorld (env_AZURE_STORAGE_CONNECTION_STRING w)
          (mkService (svc_tableName (manager w)) (Some c) (tableClient (manager w)))
          (constructions w ++ [BuiltServiceClient c])
          (calls w).

Definition set_tableClient (c : TableClient) (w : World) : World :=
  mkWorld (env_AZURE_STORAGE_CONNECTION_STRING w)
          (mkService (svc_tableName (manager w)) (tableServiceClient (manager w)) (Some c))
          (constructions w ++ [BuiltTableClient c])
          (calls w).

(** [get tableServiceClientInstance()].  When the field is unset the
    factory is called with the environment's connection string; if it
    throws, the getter throws the same and the field stays unset. *)
Definition tableServiceClientInstance (backend : Backend)
    : M RestError TableServiceClient :=
  fun w =>
    match tableServiceClient (manager w) with
    | Some c => (Returned c, w)
    | None =>
        match serviceClientFromConnectionString backend
                (env_AZURE_STORAGE_CONNECTION_STRING w) with
        | Some e => (Threw e, w)
        | None =>
            let c := mkTableServiceClient (length (constructions w))
                       (env_AZURE_STORAGE_CONNECTION_STRING w) in
            (Returned c, set_tableServiceClient c w)
        end
    end.

(** [get tableClientInstance()]; the options passed to the factory
    are [{ allowInsecureConnection: true }]. *)
Definition tableClientInstance (backend : Backend) : M RestError TableClient :=
  fun w =>
    match tableClient (manager w) with
    | Some c => (Returned c, w)
    | None =>
        match tableClientFromConnectionString backend
                (env_AZURE_STORAGE_CONNECTION_STRING w)
                (svc_tableName (manager w)) true with
        | Some e => (Threw e, w)
        | None =>
            let c := mkTableClient (length (constructions w))
                       (env_AZURE_STORAGE_CONNECTION_STRING w)
                       (svc_tableName (manager w))
                       true in
            (Returned c, set_tableClient c w)
        end
    end.

(** The two accessors, and runs of accessor calls on one instance. *)
Inductive accessor : Type := ServiceHandle | EntityHandle.

Inductive handle : Type :=
| IsService (c : TableServiceClient)
| IsEntity (c : TableClient).

Definition access (backend : Backend) (a : accessor) : M RestError handle :=
  match a with
  | ServiceHandle => c <- tableServiceClientInstance backend ;; ret (IsService c)
  | EntityHandle => c <- tableClientInstance backend ;; ret (IsEntity c)
  end.

(** A run: each read either returns a handle or throws; a read that
    throws does not stop the reads after it. *)
Fixpoint access_all (backend : Backend) (trace : list accessor) (w : World)
    : list (outcome RestError handle) * World :=
  match trace with
  | [] => ([], w)
  | a :: rest =>
      let (r, w1) := access backend a w in
      let (rs, w2) := access_all backend rest w1 in
      (r :: rs, w2)
  end.

(** The clients the factories have built, oldest first. *)
Fixpoint built_service (log : list Construction) : list TableServiceClient :=
  match log with
  | [] => []
  | BuiltServiceClient c :: rest => c :: built_service rest
  | BuiltTableClient _ :: rest => built_service rest
  end.

Fixpoint built_table (log : list Construction) : list TableClient :=
  match log with
  | [] => []
  | BuiltTableClient c :: rest => c :: built_table rest
  | BuiltServiceClient _ :: rest => built_table rest
  end.

(** The memoisation invariant: a field caches exactly what was built. *)
Definition memoised (w : World) : Prop :=
  built_service (constructions w) =
    match tableServiceClient (manager w) with Some c => [c] | None => [] end
  /\ built_table (constructions w) =
    match tableClient (manager w) with Some c => [c] | None => [] end.

End Service.
Import Service.

(* ================================================================= *)
(** ** The repository *)

(** The injected fields of an [AzureTableStorageRepository]; the
    [manager] is the service held by the [World]. *)
Record Repository : Type := mkRepository {
  tableName : string;
  options_createTableIfNotExists : bool
}.

Definition log_call (c : BackendCall) (w : World) : World :=
  mkWorld (env_AZURE_STORAGE_CONNECTION_STRING w) (manager w)
          (constructions w) (calls w ++ [c]).

(** [await client.method(args)]: the call is logged, then completes. *)
Definition await_backend {A} (c : BackendCall) (r : response A) : M RestError A :=
  fun w =>
    match r with
    | Ok a => (Returned a, log_call c w)
    | Fail e => (Threw e, log_call c w)
    end.

(** The body of [for await (const entity of records) entities.push(entity)]. *)
Fixpoint drain (records : list obj) (failure : option RestError)
    (entities : list obj) : outcome RestError (list obj) :=
  match records with
  | entity :: rest => drain rest failure (entities ++ [entity])%list
  | [] =>
      match failure with
      | Some e => Threw e
      | None => Returned entities
      end
  end.

(** [entity.hasOwnProperty(k)].  The method is looked up on the
    entity: an own property named [hasOwnProperty] shadows the one of
    [Object.prototype], and no value of [jsval] can be called, so the
    call is then a [TypeError] ([None]). *)
Definition call_hasOwnProperty (entity : obj) (k : string) : option bool :=
  match lookup "hasOwnProperty" entity with
  | Some _ => None
  | None => Some (hasOwnProperty entity k)
  end.

(** The two [hasOwnProperty] tests of [update], each followed by its
    assignment; the assignments change the caller's object, which is
    then the one sent.  An object of [obj] is a plain extensible object
    without accessors, so the assignments themselves succeed. *)
Definition with_keys (partitionKey rowKey : string) (entity : obj) : option obj :=
  match call_hasOwnProperty entity "rowKey" with
  | None => None
  | Some has_rowKey =>
      let entity1 :=
        if negb has_rowKey then set_prop entity "rowKey" (JStr rowKey)
        else entity in
      match call_hasOwnProperty entity1 "partitionKey" with
      | None => None
      | Some has_partitionKey =>
          Some (if negb has_partitionKey
                then set_prop entity1 "partitionKey" (JStr partitionKey)
                else entity1)
      end
  end.

Section Repo.

(** [AzureEntityMapper.serialize], defined in a file of its own. *)
Variable serialize : obj -> obj.
Variable backend : Backend.
Variable this : Repository.

(** Every [catch] block:
    [const customError = await this.handleRestErrors(error as RestError);
     throw customError;]
    An exception of [handleRestErrors] itself escapes the block. *)
Definition rethrow_classified {A} (error : RestError) : M thrown A :=
  match handleRestErrors (tableName this) error with
  | Returned customError => throw (ThrownCustom customError)
  | Threw t => throw t
  end.

(** In every method the getter is read inside the [try] block, so
    what a factory throws reaches the [catch] block like an error of
    the backend call. *)
Definition createTableIfNotExists (name : option string) : M thrown (option bool) :=
  try_catch
    (h <- Service.tableServiceClientInstance backend ;;
     _ <- await_backend (CallCreateTable h name) (createTable backend h name) ;;
     ret (Some true))
    rethrow_classified.

(** [null] is [None]. *)
Definition find (partitionKey rowKey : string) : M thrown (option obj) :=
  try_catch
    (h <- Service.tableClientInstance backend ;;
     result <- await_backend (CallGetEntity h partitionKey rowKey)
                 (getEntity backend h partitionKey rowKey) ;;
     let mappedEntity := serialize result in
     if Nat.eqb (entries_length mappedEntity) 0 then ret None
     else ret (Some mappedEntity))
    rethrow_classified.

Definition findAll (queryOptions : jsval) : M thrown (list obj) :=
  try_catch
    (h <- Service.tableClientInstance backend ;;
     fun w =>
       let records := listEntities backend h queryOptions in
       (drain (fst records) (snd records) [],
        log_call (CallListEntities h queryOptions) w))
    rethrow_classified.

Definition create (entity : obj) : M thrown (option obj) :=
  let write : M thrown (option obj) :=
    try_catch
      (h <- Service.tableClientInstance backend ;;
       result <- await_backend (CallCreateEntity h entity)
                   (createEntity backend h entity) ;;
       ret (Some (serialize result)))
      rethrow_classified in
  if options_createTableIfNotExists this then
    res <- createTableIfNotExists (Some (tableName this)) ;;
    match res with
    | None => ret None
    | Some _ => write
    end
  else write.

(** The key tests come before the [try] block: a [TypeError] of
    theirs leaves [update] as it is. *)
Definition update (partitionKey rowKey : string) (entity : obj) : M thrown obj :=
  match with_keys partitionKey rowKey entity with
  | None => throw ThrownTypeError
  | Some entity' =>
      try_catch
        (h <- Service.tableClientInstance backend ;;
         result <- await_backend (CallUpdateEntity h entity')
                     (updateEntity backend h entity') ;;
         ret (serialize result))
        rethrow_classified
  end.

Definition delete (partitionKey rowKey : string) : M thrown jsval :=
  try_catch
    (h <- Service.tableClientInstance backend ;;
     result <- await_backend (CallDeleteEntity h partitionKey rowKey)
                 (deleteEntity backend h partitionKey rowKey) ;;
     ret result)
    rethrow_classified.

End Repo.
(* ================================================================= *)
(** ** Definitions used to state the properties *)

(** Modelled from the spec: the connection configuration of the
    external-interfaces section ("a connection string ... and a table
    name, both supplied at construction; an allowInsecureConnection-style
    flag for non-TLS backends").  The source has no such record: the
    connection string is read from the process environment, the table
    name is injected, and nothing supplies a flag. *)
Record ConnectionConfiguration : Type := mkConfiguration {
  cfg_connectionString : option string;
  cfg_tableName : string;
  cfg_allowInsecureConnection : bool
}.

(** The state a service instance starts in under a configuration. *)
Definition configure (cfg : ConnectionConfiguration) : World :=
  new_world (cfg_connectionString cfg) (cfg_tableName cfg).

(** Modelled from the spec: the entity mapper
    ([AzureEntityMapper.serialize], whose file is not among the
    sources), which "must strip backend-internal metadata fields (e.g.,
    ETags, timestamps) that are not part of T's logical shape, unless T
    explicitly declares them".  [declared] lists the fields of [T]. *)
Definition metadata_fields : list string := [ "etag"; "timestamp" ].

Definition strip_metadata (declared : list string) (raw : obj) : obj :=
  filter (fun kv =>
            negb (existsb (String.eqb (fst kv)) metadata_fields)
            || existsb (String.eqb (fst kv)) declared)
         raw.

(** The keys [update] appends to an entity: those it lacks, the row
    key first. *)
Definition missing_keys (pk rk : string) (entity : obj) : obj :=
  ((if hasOwnProperty entity "rowKey" then [] else [("rowKey", JStr rk)])
   ++ (if hasOwnProperty entity "partitionKey" then []
       else [("partitionKey", JStr pk)]))%list.

(** A computation keeps the memoisation invariant. *)
Definition keeps_memoised {E A} (m : M E A) : Prop :=
  forall w, memoised w -> memoised (snd (m w)).

Create HintDb memo.

Module Examples.

Definition line_break : string := String newline EmptyString.

(** A backend error that never reached the service. *)
Definition transport_error : RestError :=
  mkRestError "connect ECONNREFUSED 127.0.0.1:10002" JUndefined (Some 503%Z).

Definition odata (c : string) (body : string) : jsval :=
  JObj [ ("odataError",
          JObj [ ("code", JStr c);
                 ("message", JObj [ ("lang", JStr "en-US"); ("value", JStr body) ]) ]) ].

Definition not_found_error : RestError :=
  mkRestError "{odata.error: ResourceNotFound}"
    (odata "ResourceNotFound" "The specified resource does not exist.")
    (Some 404%Z).

Definition invalid_input_error : RestError :=
  mkRestError "{odata.error: InvalidInput}"
    (odata "InvalidInput"
       ("One of the request inputs is not valid." ++ line_break
        ++ "RequestId:7f3a" ++ line_break ++ "Time:2024-01-01T00:00:00Z"))
    (Some 400%Z).

Definition throttled_error : RestError :=
  mkRestError "{odata.error: ServerBusy}"
    (odata "ServerBusy" "The server is busy.") (Some 503%Z).

(** A stored record as the listing returns it, with its ETag. *)
Definition stored_record : obj :=
  [ ("partitionKey", JStr "users"); ("rowKey", JStr "42");
    ("name", JStr "Ada"); ("etag", JStr "W/datetime'2024-01-01'") ].

(** A backend holding [stored_record] only, where every point lookup
    misses and every write echoes the entity. *)
(** What the factories throw when the connection string is unset. *)
Definition connection_error : RestError :=
  mkRestError "Invalid connection string" JUndefined None.

Definition reject_unset (connectionString : option string) : option RestError :=
  match connectionString with
  | Some _ => None
  | None => Some connection_error
  end.

Definition backend : Backend :=
  mkBackend
    reject_unset
    (fun connectionString _ _ => reject_unset connectionString)
    (fun _ _ => Ok tt)
    (fun _ _ _ => Fail not_found_error)
    (fun _ _ => ([stored_record], None))
    (fun _ entity => Ok entity)
    (fun _ entity => Ok entity)
    (fun _ _ _ => Ok JUndefined).

Definition repository : Repository := mkRepository "people" true.

Definition world : World := new_world (Some "UseDevelopmentStorage=true") "people".


(** The clients the getters build first in [world]. *)
Definition entity_client : TableClient :=
  mkTableClient 0 (Some "UseDevelopmentStorage=true") "people" true.

Definition service_client : TableServiceClient :=
  mkTableServiceClient 0 (Some "UseDevelopmentStorage=true").

Definition insecure_forbidden : ConnectionConfiguration :=
  mkConfiguration (Some "UseDevelopmentStorage=true") "people" false.

Definition patch : obj := [ ("name", JStr "Grace") ].


End Examples.

(* ================================================================= *)
(** ** Sessions: runs of repository methods *)

(** Whether a thrown value is an error object of the backend itself. *)
Definition is_backend_error (t : thrown) : bool :=
  match t with ThrownRest _ => true | _ => false end.

(** What a [catch] block ends up throwing for the backend error
    [error]: the classified domain error, or what the classifier
    throws itself. *)
Definition surfaced (tableName : string) (error : RestError) : thrown :=
  match handleRestErrors tableName error with
  | Returned customError => ThrownCustom customError
  | Threw t => t
  end.


(** The client a backend call was made on. *)
Definition call_handle (c : BackendCall) : handle :=
  match c with
  | CallCreateTable h _ => IsService h
  | CallGetEntity h _ _ => IsEntity h
  | CallListEntities h _ => IsEntity h
  | CallCreateEntity h _ => IsEntity h
  | CallUpdateEntity h _ => IsEntity h
  | CallDeleteEntity h _ _ => IsEntity h
  end.

(** Every backend call so far was made on the client the service
    caches now. *)
Definition calls_on_cached (w : World) : Prop :=
  forall c, In c (calls w) ->
    match call_handle c with
    | IsService h => tableServiceClient (manager w) = Some h
    | IsEntity h => tableClient (manager w) = Some h
    end.

(** A call of one public method of the repository. *)
Inductive operation : Type :=
| OpCreateTableIfNotExists (name : option string)
| OpFind (partitionKey rowKey : string)
| OpFindAll (queryOptions : jsval)
| OpCreate (entity : obj)
| OpUpdate (partitionKey rowKey : string) (entity : obj)
| OpDelete (partitionKey rowKey : string).

(** The state a method call leaves, whether it returns or throws. *)
Definition run_operation (serialize : obj -> obj) (backend : Backend)
    (this : Repository) (op : operation) (w : World) : World :=
  match op with
  | OpCreateTableIfNotExists name => snd (createTableIfNotExists backend this name w)
  | OpFind pk rk => snd (find serialize backend this pk rk w)
  | OpFindAll q => snd (findAll backend this q w)
  | OpCreate entity => snd (create serialize backend this entity w)
  | OpUpdate pk rk entity => snd (update serialize backend this pk rk entity w)
  | OpDelete pk rk => snd (delete backend this pk rk w)
  end.

Definition run_operations (serialize : obj -> obj) (backend : Backend)
    (this : Repository) (ops : list operation) (w : World) : World :=
  fold_left (fun w op => run_operation serialize backend this op w) ops w.

Module Scenarios.

Definition table_exists_error : RestError :=
  mkRestError "{odata.error: TableAlreadyExists}"
    (Examples.odata "TableAlreadyExists" "The table specified already exists.")
    (Some 409%Z).

(** A message that looks structured on an error without details. *)
Definition bare_json_error : RestError :=
  mkRestError "{}" JUndefined (Some 500%Z).

(** A backend on which the table exists already and says so. *)
Definition provisioned_backend : Backend :=
  mkBackend
    Examples.reject_unset
    (fun connectionString _ _ => Examples.reject_unset connectionString)
    (fun _ _ => Fail table_exists_error)
    (fun _ _ _ => Ok Examples.stored_record)
    (fun _ _ => ([Examples.stored_record], Some Examples.throttled_error))
    (fun _ entity => Ok entity)
    (fun _ entity => Ok entity)
    (fun _ _ _ => Ok JUndefined).

(** The repository without table provisioning. *)
Definition plain_repository : Repository := mkRepository "people" false.

(** An entity with a property of its own named [hasOwnProperty]. *)
Definition shadowing_entity : obj :=
  [ ("name", JStr "Grace"); ("hasOwnProperty", JBool true) ].

End Scenarios.

(* ================================================================= *)
(** ** Strings and lines *)

Section StringFacts.

Lemma append_nil_r (s : string) : s ++ "" = s.
Proof. induction s as [|c s IH]; simpl; [reflexivity | now rewrite IH]. Qed.

Lemma append_assoc (a b c : string) : (a ++ b) ++ c = a ++ (b ++ c).
Proof. induction a as [|x a IH]; simpl; [reflexivity | now rewrite IH]. Qed.

Lemma split_newline_not_nil (s : string) : split_newline s <> [].
Proof.
  induction s as [|c s IH]; simpl; [discriminate|].
  destruct (Ascii.eqb c newline); [discriminate|].
  destruct (split_newline s); discriminate.
Qed.

(** A piece without line break in front of [s] extends the first
    piece of [s]. *)
Lemma split_newline_app (l s : string) :
  has_newline l = false ->
  split_newline (l ++ s) =
    match split_newline s with
    | [] => [l]
    | piece :: pieces => (l ++ piece) :: pieces
    end.
Proof.
  induction l as [|c l IH]; simpl; intros Hl.
  - destruct (split_newline s) eqn:E; [|reflexivity].
    now destruct (split_newline_not_nil s).
  - apply orb_false_iff in Hl as [Hc Hl].
    rewrite Hc, (IH Hl).
    destruct (split_newline s); reflexivity.
Qed.

Lemma split_newline_line (l : string) :
  has_newline l = false -> split_newline l = [l].
Proof.
  intros Hl. rewrite <- (append_nil_r l) at 1.
  rewrite (split_newline_app l "" Hl). simpl. now rewrite append_nil_r.
Qed.

(** Splitting the join of lines gives the lines back. *)
Lemma split_newline_join (lines : list string) :
  Forall (fun l => has_newline l = false) lines ->
  split_newline (join_newline lines) =
    match lines with [] => [""] | _ => lines end.
Proof.
  unfold join_newline.
  induction lines as [|l rest IH]; intros Hall; [reflexivity|].
  inversion Hall as [|? ? Hl Hrest]; subst.
  destruct rest as [|l' rest'].
  - simpl. now apply split_newline_line.
  - change (String.concat (String newline "") (l :: l' :: rest'))
      with (l ++ String newline "" ++ String.concat (String newline "") (l' :: rest')).
    rewrite (split_newline_app _ _ Hl).
    change (String newline "" ++ ?x) with (String newline x).
    cbn [split_newline]. rewrite Ascii.eqb_refl.
    rewrite (IH Hrest). now rewrite append_nil_r.
Qed.

(** Joining the pieces of a string gives the string back, and no
    piece holds a line break. *)
Lemma join_split_newline (s : string) : join_newline (split_newline s) = s.
Proof.
  unfold join_newline.
  induction s as [|c s IH]; [reflexivity|].
  cbn [split_newline].
  destruct (Ascii.eqb c newline) eqn:Ec.
  - apply Ascii.eqb_eq in Ec; subst c.
    destruct (split_newline s) as [|p ps] eqn:E.
    + now destruct (split_newline_not_nil s).
    + change (String.concat (String newline "") ("" :: p :: ps))
        with (String newline (String.concat (String newline "") (p :: ps))).
      now rewrite IH.
  - destruct (split_newline s) as [|p ps] eqn:E.
    + now destruct (split_newline_not_nil s).
    + destruct ps as [|q qs]; simpl in *; now rewrite <- IH.
Qed.

Lemma split_newline_pieces (s : string) :
  Forall (fun l => has_newline l = false) (split_newline s).
Proof.
  induction s as [|c s IH]; simpl.
  - repeat constructor.
  - destruct (Ascii.eqb c newline) eqn:Ec.
    + constructor; [reflexivity | exact IH].
    + destruct (split_newline s) as [|p ps]; simpl.
      * repeat constructor. simpl. now rewrite Ec.
      * inversion IH; subst. constructor; [simpl; now rewrite Ec | assumption].
Qed.

(** The [forEach] appends the lines in order. *)
Lemma append_lines_concat (acc : string) (lines : list string) :
  append_lines acc lines = acc ++ String.concat "" lines.
Proof.
  unfold append_lines. revert acc.
  induction lines as [|l rest IH]; intros acc; simpl.
  - now rewrite append_nil_r.
  - rewrite IH. destruct rest; simpl.
    + now rewrite append_assoc, append_nil_r.
    + now rewrite append_assoc.
Qed.

End StringFacts.

(* ================================================================= *)
(** ** The classifier *)

Section ClassifierFacts.

Variable tn : string.

(** The first test of [handleRestErrors]. *)
Lemma handleRestErrors_unstructured (error : RestError) :
  startsWith_brace (rest_message error) = false ->
  handleRestErrors tn error = Threw (ThrownError (rest_message error)).
Proof. intros H. unfold handleRestErrors. now rewrite H. Qed.

Lemma handleRestErrors_structured (error : RestError) (c : jsval) :
  startsWith_brace (rest_message error) = true ->
  odata_field error "code" = Some c ->
  handleRestErrors tn error =
    match switch_errorCode tn error c with
    | None => Threw ThrownTypeError
    | Some errorMessage =>
        Returned (mkCustomError errorMessage c (rest_statusCode error))
    end.
Proof. intros H Hc. unfold handleRestErrors. now rewrite H, Hc. Qed.

(** A value outside the case labels reaches [default]. *)
Lemma switch_errorCode_default (error : RestError) (c : jsval) :
  (forall k, In k known_codes -> c <> JStr k) ->
  switch_errorCode tn error c = Some (rest_message error).
Proof.
  intros Hunknown. destruct c as [| | | |s|]; try reflexivity.
  unfold switch_errorCode.
  repeat match goal with
  | |- context [String.eqb s ?k] =>
      destruct (String.eqb_spec s k) as [->|_];
      [ exfalso; apply (Hunknown k); [simpl; tauto | reflexivity] | ]
  end.
  reflexivity.
Qed.

End ClassifierFacts.

(** C2 (as stated, refuted): for the unstructured error
    [Examples.transport_error] the classifier does not raise the
    original error value: it raises a new plain [Error] that carries
    the message only, so the original status code and details are not
    available to the caller. *)
Lemma C2_counterexample :
  startsWith_brace (rest_message Examples.transport_error) = false
  /\ handleRestErrors "people" Examples.transport_error
       = Threw (ThrownError "connect ECONNREFUSED 127.0.0.1:10002")
  /\ handleRestErrors "people" Examples.transport_error
       <> Threw (ThrownRest Examples.transport_error)
  /\ thrown_statusCode (ThrownError "connect ECONNREFUSED 127.0.0.1:10002")
       <> rest_statusCode Examples.transport_error.
Proof. repeat split; discriminate. Qed.

(** C2 (amended): for every raw backend error whose message does not
    start with an opening brace, the classifier constructs no domain
    error; it raises a newly built plain [Error] whose message is the
    original message, and which has no status code and no details. *)
Theorem C2_unstructured_error_rethrown_as_plain_error
    (tn : string) (error : RestError) :
  startsWith_brace (rest_message error) = false ->
  exists t,
    handleRestErrors tn error = Threw t
    /\ t = ThrownError (rest_message error)
    /\ is_domain_error t = false
    /\ thrown_statusCode t = None
    /\ thrown_details t = JUndefined.
Proof.
  intros H. exists (ThrownError (rest_message error)).
  rewrite (handleRestErrors_unstructured tn error H). repeat split.
Qed.

Lemma C2_witness :
  exists t,
    handleRestErrors "people" Examples.transport_error = Threw t
    /\ t = ThrownError (rest_message Examples.transport_error)
    /\ is_domain_error t = false
    /\ thrown_statusCode t = None
    /\ thrown_details t = JUndefined.
Proof.
  apply (C2_unstructured_error_rethrown_as_plain_error "people" Examples.transport_error).
  reflexivity.
Defined.

(** C7: for every structured backend error with detail code
    [InvalidInput] whose detail message body is made of the lines
    [lines] (joined by line breaks), the classifier returns a domain
    error whose message is the fixed prefix followed by all the lines,
    concatenated in their original order. *)
Theorem C7_InvalidInput_message_concatenates_lines
    (tn : string) (error : RestError) (lines : list string) :
  startsWith_brace (rest_message error) = true ->
  odata_field error "code" = Some (JStr "InvalidInput") ->
  Forall (fun l => has_newline l = false) lines ->
  odata_message_value error = Some (JStr (join_newline lines)) ->
  handleRestErrors tn error =
    Returned (mkCustomError ("Error creating entity:" ++ String.concat "" lines)
                (JStr "InvalidInput") (rest_statusCode error)).
Proof.
  intros Hs Hc Hlines Hbody.
  rewrite (handleRestErrors_structured tn error _ Hs Hc).
  cbn [switch_errorCode]. cbv [String.eqb Ascii.eqb Bool.eqb].
  unfold odata_message_lines. rewrite Hbody.
  rewrite (split_newline_join lines Hlines), append_lines_concat.
  destruct lines; reflexivity.
Qed.

Lemma C7_witness :
  handleRestErrors "people" Examples.invalid_input_error =
    Returned (mkCustomError
                ("Error creating entity:"
                 ++ String.concat ""
                      [ "One of the request inputs is not valid.";
                        "RequestId:7f3a"; "Time:2024-01-01T00:00:00Z" ])
                (JStr "InvalidInput") (rest_statusCode Examples.invalid_input_error)).
Proof.
  apply (C7_InvalidInput_message_concatenates_lines "people"
           Examples.invalid_input_error
           [ "One of the request inputs is not valid.";
             "RequestId:7f3a"; "Time:2024-01-01T00:00:00Z" ]).
  - reflexivity.
  - reflexivity.
  - repeat constructor.
  - reflexivity.
Defined.

(** C9: for every structured backend error whose detail code is none
    of the six case labels, the classifier returns a domain error whose
    message is the raw backend message, whose code is the payload's
    detail code and whose status code is the backend's. *)
Theorem C9_unknown_code_keeps_raw_message
    (tn : string) (error : RestError) (c : jsval) :
  startsWith_brace (rest_message error) = true ->
  odata_field error "code" = Some c ->
  (forall k, In k known_codes -> c <> JStr k) ->
  handleRestErrors tn error =
    Returned (mkCustomError (rest_message error) c (rest_statusCode error)).
Proof.
  intros Hs Hc Hunknown.
  rewrite (handleRestErrors_structured tn error c Hs Hc).
  now rewrite (switch_errorCode_default tn error c Hunknown).
Qed.

Lemma C9_witness :
  handleRestErrors "people" Examples.throttled_error =
    Returned (mkCustomError (rest_message Examples.throttled_error)
                (JStr "ServerBusy") (rest_statusCode Examples.throttled_error)).
Proof.
  apply (C9_unknown_code_keeps_raw_message "people" Examples.throttled_error
           (JStr "ServerBusy")).
  - reflexivity.
  - reflexivity.
  - intros k Hk. simpl in Hk.
    repeat (destruct Hk as [<-|Hk]; [discriminate|]). destruct Hk.
Defined.

(* ================================================================= *)
(** ** Objects *)

Section ObjectFacts.


(** Assigning a property the object lacks appends it. *)
Lemma set_prop_absent (o : obj) (k : string) (v : jsval) :
  hasOwnProperty o k = false -> set_prop o k v = (o ++ [(k, v)])%list.
Proof.
  unfold hasOwnProperty.
  induction o as [|[k' v'] o IH]; simpl; [reflexivity|].
  destruct (String.eqb k k'); [discriminate|].
  intros H. now rewrite (IH H).
Qed.

(** Assigning one property leaves the others as they were. *)
Lemma lookup_set_prop_other (o : obj) (k k' : string) (v : jsval) :
  k <> k' -> lookup k (set_prop o k' v) = lookup k o.
Proof.
  intros Hne. induction o as [|[k0 v0] o IH]; simpl.
  - now destruct (String.eqb_spec k k').
  - destruct (String.eqb_spec k' k0) as [E|E]; simpl.
    + subst k0. now destruct (String.eqb_spec k k').
    + now rewrite IH.
Qed.

Lemma hasOwnProperty_set_prop_other (o : obj) (k k' : string) (v : jsval) :
  k <> k' -> hasOwnProperty (set_prop o k' v) k = hasOwnProperty o k.
Proof. intros Hne. unfold hasOwnProperty. now rewrite lookup_set_prop_other. Qed.


(** The key tests throw exactly when the entity has a property of its
    own named [hasOwnProperty]. *)
Lemma with_keys_throws (pk rk : string) (entity : obj) :
  lookup "hasOwnProperty" entity <> None -> with_keys pk rk entity = None.
Proof.
  intros H. unfold with_keys, call_hasOwnProperty.
  destruct (lookup "hasOwnProperty" entity); [reflexivity | now destruct H].
Qed.

(** Otherwise the entity sent is the entity given, followed by the
    keys it lacked. *)
Lemma with_keys_extends (pk rk : string) (entity : obj) :
  lookup "hasOwnProperty" entity = None ->
  with_keys pk rk entity = Some (entity ++ missing_keys pk rk entity)%list.
Proof.
  intros Hm. unfold with_keys, call_hasOwnProperty, missing_keys. rewrite Hm.
  destruct (hasOwnProperty entity "rowKey") eqn:Hr; cbn [negb].
  - rewrite Hm.
    destruct (hasOwnProperty entity "partitionKey") eqn:Hp; cbn [negb app].
    + now rewrite app_nil_r.
    + now rewrite (set_prop_absent entity _ _ Hp).
  - rewrite lookup_set_prop_other by discriminate. rewrite Hm.
    rewrite hasOwnProperty_set_prop_other by discriminate.
    rewrite (set_prop_absent entity _ _ Hr).
    destruct (hasOwnProperty entity "partitionKey") eqn:Hp; cbn [negb app].
    + reflexivity.
    + rewrite set_prop_absent.
      * now rewrite <- app_assoc.
      * rewrite <- (set_prop_absent entity _ (JStr rk) Hr).
        now rewrite hasOwnProperty_set_prop_other by discriminate.
Qed.

(** The converse: an entity is sent only if the tests did not throw. *)
Lemma with_keys_sent (pk rk : string) (entity sent : obj) :
  with_keys pk rk entity = Some sent ->
  lookup "hasOwnProperty" entity = None
  /\ sent = (entity ++ missing_keys pk rk entity)%list.
Proof.
  intros H. destruct (lookup "hasOwnProperty" entity) as [v|] eqn:Hm.
  - rewrite with_keys_throws in H; [discriminate | now rewrite Hm].
  - rewrite (with_keys_extends pk rk entity Hm) in H. inversion H. now split.
Qed.






End ObjectFacts.

(* ================================================================= *)
(** ** The repository methods, unfolded *)

Section GetterFacts.

Variable backend : Backend.

(** A getter that throws leaves the state as it was. *)
Lemma tableClientInstance_throws (w w1 : World) (e : RestError) :
  Service.tableClientInstance backend w = (Threw e, w1) -> w1 = w.
Proof.
  unfold Service.tableClientInstance.
  destruct (tableClient (manager w)); [discriminate|].
  destruct (tableClientFromConnectionString backend _ _ _); intros H;
    now inversion H.
Qed.

Lemma tableServiceClientInstance_throws (w w1 : World) (e : RestError) :
  Service.tableServiceClientInstance backend w = (Threw e, w1) -> w1 = w.
Proof.
  unfold Service.tableServiceClientInstance.
  destruct (tableServiceClient (manager w)); [discriminate|].
  destruct (serviceClientFromConnectionString backend _); intros H;
    now inversion H.
Qed.

(** The getters leave the call log alone. *)
Lemma tableClientInstance_calls (w : World) :
  calls (snd (Service.tableClientInstance backend w)) = calls w.
Proof.
  unfold Service.tableClientInstance.
  destruct (tableClient (manager w)); [reflexivity|].
  destruct (tableClientFromConnectionString backend _ _ _); reflexivity.
Qed.

Lemma tableServiceClientInstance_calls (w : World) :
  calls (snd (Service.tableServiceClientInstance backend w)) = calls w.
Proof.
  unfold Service.tableServiceClientInstance.
  destruct (tableServiceClient (manager w)); [reflexivity|].
  destruct (serviceClientFromConnectionString backend _); reflexivity.
Qed.

(** A getter that returns has cached what it returns, keeps the other
    field, and returns what was cached if anything was. *)
Lemma tableClientInstance_returns (w w1 : World) (h : TableClient) :
  Service.tableClientInstance backend w = (Returned h, w1) ->
  tableClient (manager w1) = Some h
  /\ tableServiceClient (manager w1) = tableServiceClient (manager w)
  /\ calls w1 = calls w
  /\ (forall c, tableClient (manager w) = Some c -> c = h /\ w1 = w)
  /\ (tableClient (manager w) = None ->
      constructions w1 = (constructions w ++ [BuiltTableClient h])%list
      /\ tc_connectionString h = env_AZURE_STORAGE_CONNECTION_STRING w
      /\ tc_tableName h = svc_tableName (manager w)
      /\ tc_allowInsecureConnection h = true).
Proof.
  unfold Service.tableClientInstance.
  destruct (tableClient (manager w)) as [c|] eqn:E.
  - intros H. inversion H; subst c w1.
    split; [exact E|]. split; [reflexivity|]. split; [reflexivity|]. split.
    + intros c' Hc. inversion Hc. now split.
    + discriminate.
  - destruct (tableClientFromConnectionString backend _ _ _); [discriminate|].
    intros H. inversion H; subst h w1. simpl.
    split; [reflexivity|]. split; [reflexivity|]. split; [reflexivity|]. split.
    + discriminate.
    + intros _. repeat split.
Qed.

Lemma tableServiceClientInstance_returns (w w1 : World) (h : TableServiceClient) :
  Service.tableServiceClientInstance backend w = (Returned h, w1) ->
  tableServiceClient (manager w1) = Some h
  /\ tableClient (manager w1) = tableClient (manager w)
  /\ calls w1 = calls w
  /\ (forall c, tableServiceClient (manager w) = Some c -> c = h /\ w1 = w)
  /\ (tableServiceClient (manager w) = None ->
      constructions w1 = (constructions w ++ [BuiltServiceClient h])%list
      /\ tsc_connectionString h = env_AZURE_STORAGE_CONNECTION_STRING w).
Proof.
  unfold Service.tableServiceClientInstance.
  destruct (tableServiceClient (manager w)) as [c|] eqn:E.
  - intros H. inversion H; subst c w1.
    split; [exact E|]. split; [reflexivity|]. split; [reflexivity|]. split.
    + intros c' Hc. inversion Hc. now split.
    + discriminate.
  - destruct (serviceClientFromConnectionString backend _); [discriminate|].
    intros H. inversion H; subst h w1. simpl.
    split; [reflexivity|]. split; [reflexivity|]. split; [reflexivity|]. split.
    + discriminate.
    + intros _. repeat split.
Qed.

End GetterFacts.

Section RepositoryFacts.

Variable serialize : obj -> obj.
Variable backend : Backend.
Variable this : Repository.

Lemma drain_all (records : list obj) (acc : list obj) :
  drain records None acc = Returned (E:=RestError) (acc ++ records)%list.
Proof.
  revert acc. induction records as [|r rest IH]; intros acc; simpl.
  - now rewrite app_nil_r.
  - rewrite IH. now rewrite <- app_assoc.
Qed.

Lemma drain_failure (records : list obj) (e : RestError) (acc : list obj) :
  drain records (Some e) acc = Threw e.
Proof.
  revert acc. induction records as [|r rest IH]; intros acc; simpl;
    [reflexivity | apply IH].
Qed.

Lemma find_unfold (pk rk : string) (w : World) :
  find serialize backend this pk rk w =
    match Service.tableClientInstance backend w with
    | (Threw e, w1) => rethrow_classified this e w1
    | (Returned h, w1) =>
        let w2 := log_call (CallGetEntity h pk rk) w1 in
        match getEntity backend h pk rk with
        | Ok result =>
            if Nat.eqb (entries_length (serialize result)) 0
            then (Returned None, w2)
            else (Returned (Some (serialize result)), w2)
        | Fail e => rethrow_classified this e w2
        end
    end.
Proof.
  unfold find, try_catch, bind, await_backend.
  destruct (Service.tableClientInstance backend w) as [[h|e] w1]; [|reflexivity].
  destruct (getEntity backend h pk rk); cbn; [|reflexivity].
  destruct (Nat.eqb _ 0); reflexivity.
Qed.

Lemma findAll_unfold (queryOptions : jsval) (w : World) :
  findAll backend this queryOptions w =
    match Service.tableClientInstance backend w with
    | (Threw e, w1) => rethrow_classified this e w1
    | (Returned h, w1) =>
        let w2 := log_call (CallListEntities h queryOptions) w1 in
        match drain (fst (listEntities backend h queryOptions))
                    (snd (listEntities backend h queryOptions)) [] with
        | Returned entities => (Returned entities, w2)
        | Threw e => rethrow_classified this e w2
        end
    end.
Proof.
  unfold findAll, try_catch, bind.
  destruct (Service.tableClientInstance backend w) as [[h|e] w1]; [|reflexivity].
  cbn. destruct (drain _ _ _); reflexivity.
Qed.

Lemma createTableIfNotExists_unfold (name : option string) (w : World) :
  createTableIfNotExists backend this name w =
    match Service.tableServiceClientInstance backend w with
    | (Threw e, w1) => rethrow_classified this e w1
    | (Returned h, w1) =>
        let w2 := log_call (CallCreateTable h name) w1 in
        match createTable backend h name with
        | Ok _ => (Returned (Some true), w2)
        | Fail e => rethrow_classified this e w2
        end
    end.
Proof.
  unfold createTableIfNotExists, try_catch, bind, await_backend.
  destruct (Service.tableServiceClientInstance backend w) as [[h|e] w1]; [|reflexivity].
  destruct (createTable backend h name); reflexivity.
Qed.

(** [update], once the key tests have passed. *)
Lemma update_unfold (pk rk : string) (entity : obj) (w : World) :
  update serialize backend this pk rk entity w =
    match with_keys pk rk entity with
    | None => (Threw ThrownTypeError, w)
    | Some entity' =>
        match Service.tableClientInstance backend w with
        | (Threw e, w1) => rethrow_classified this e w1
        | (Returned h, w1) =>
            let w2 := log_call (CallUpdateEntity h entity') w1 in
            match updateEntity backend h entity' with
            | Ok result => (Returned (serialize result), w2)
            | Fail e => rethrow_classified this e w2
            end
        end
    end.
Proof.
  unfold update. destruct (with_keys pk rk entity) as [entity'|]; [|reflexivity].
  unfold try_catch, bind, await_backend.
  destruct (Service.tableClientInstance backend w) as [[h|e] w1]; [|reflexivity].
  destruct (updateEntity backend h _); reflexivity.
Qed.

Lemma delete_unfold (pk rk : string) (w : World) :
  delete backend this pk rk w =
    match Service.tableClientInstance backend w with
    | (Threw e, w1) => rethrow_classified this e w1
    | (Returned h, w1) =>
        let w2 := log_call (CallDeleteEntity h pk rk) w1 in
        match deleteEntity backend h pk rk with
        | Ok result => (Returned result, w2)
        | Fail e => rethrow_classified this e w2
        end
    end.
Proof.
  unfold delete, try_catch, bind, await_backend.
  destruct (Service.tableClientInstance backend w) as [[h|e] w1]; [|reflexivity].
  destruct (deleteEntity backend h pk rk); reflexivity.
Qed.

(** The classifier's result is always thrown, never returned. *)
Lemma rethrow_classified_throws {A} (e : RestError) (w : World) :
  exists t, rethrow_classified this (A:=A) e w = (Threw t, w).
Proof.
  unfold rethrow_classified.
  destruct (handleRestErrors (tableName this) e) as [c|t]; eexists; reflexivity.
Qed.

Lemma rethrow_classified_world {A} (e : RestError) (w : World) :
  snd (rethrow_classified this (A:=A) e w) = w.
Proof.
  destruct (rethrow_classified_throws (A:=A) e w) as [t Ht].
  now rewrite Ht.
Qed.

Lemma rethrow_classified_surfaced {A} (e : RestError) (w : World) :
  rethrow_classified this (A:=A) e w = (Threw (surfaced (tableName this) e), w).
Proof.
  unfold rethrow_classified, surfaced.
  destruct (handleRestErrors (tableName this) e); reflexivity.
Qed.

(** The [try] block of [create], without provisioning. *)
Lemma create_write (entity : obj) (w : World) :
  options_createTableIfNotExists this = false ->
  create serialize backend this entity w =
    match Service.tableClientInstance backend w with
    | (Threw e, w1) => rethrow_classified this e w1
    | (Returned h, w1) =>
        let w2 := log_call (CallCreateEntity h entity) w1 in
        match createEntity backend h entity with
        | Ok result => (Returned (Some (serialize result)), w2)
        | Fail e => rethrow_classified this e w2
        end
    end.
Proof.
  intros Hopt. unfold create. rewrite Hopt.
  unfold try_catch, bind, await_backend.
  destruct (Service.tableClientInstance backend w) as [[h|e] w1]; [|reflexivity].
  destruct (createEntity backend h entity); reflexivity.
Qed.

(** [create] with provisioning: the provisioning either throws, and
    [create] throws the same, or returns, and [create] goes on to
    write. *)
Lemma create_provisioned (entity : obj) (w : World) :
  options_createTableIfNotExists this = true ->
  create serialize backend this entity w =
    match createTableIfNotExists backend this (Some (tableName this)) w with
    | (Threw t, w0) => (Threw t, w0)
    | (Returned _, w0) =>
        match Service.tableClientInstance backend w0 with
        | (Threw e, w1) => rethrow_classified this e w1
        | (Returned h, w1) =>
            let w2 := log_call (CallCreateEntity h entity) w1 in
            match createEntity backend h entity with
            | Ok result => (Returned (Some (serialize result)), w2)
            | Fail e => rethrow_classified this e w2
            end
        end
    end.
Proof.
  intros Hopt. unfold create. rewrite Hopt. unfold bind at 1.
  rewrite createTableIfNotExists_unfold.
  destruct (Service.tableServiceClientInstance backend w) as [[hs|e0] w0].
  - cbv zeta.
    destruct (createTable backend hs (Some (tableName this))) as [u|e].
    + unfold try_catch, bind, await_backend.
      destruct (Service.tableClientInstance backend _) as [[h|e] w1]; [|reflexivity].
      destruct (createEntity backend h entity); reflexivity.
    + destruct (rethrow_classified_throws (A:=option bool) e
                  (log_call (CallCreateTable hs (Some (tableName this))) w0)) as [t Ht].
      rewrite Ht. reflexivity.
  - destruct (rethrow_classified_throws (A:=option bool) e0 w0) as [t Ht].
    rewrite Ht. reflexivity.
Qed.

Lemma create_returns (entity : obj) (w : World) (r : option obj) (w' : World) :
  create serialize backend this entity w = (Returned r, w') ->
  exists h result prior,
    createEntity backend h entity = Ok result
    /\ r = Some (serialize result)
    /\ calls w' = (prior ++ [CallCreateEntity h entity])%list.
Proof.
  assert (Hwrite : forall w0,
             match Service.tableClientInstance backend w0 with
             | (Threw e, w1) => rethrow_classified this (A:=option obj) e w1
             | (Returned h, w1) =>
                 let w2 := log_call (CallCreateEntity h entity) w1 in
                 match createEntity backend h entity with
                 | Ok result => (Returned (Some (serialize result)), w2)
                 | Fail e => rethrow_classified this e w2
                 end
             end = (Returned r, w') ->
             exists h result prior,
               createEntity backend h entity = Ok result
               /\ r = Some (serialize result)
               /\ calls w' = (prior ++ [CallCreateEntity h entity])%list).
  { intros w0.
    destruct (Service.tableClientInstance backend w0) as [[h|e] w1].
    - cbv zeta. destruct (createEntity backend h entity) as [result|e] eqn:Ec.
      + intros H. inversion H; subst. exists h, result, (calls w1). now repeat split.
      + destruct (rethrow_classified_throws (A:=option obj) e
                    (log_call (CallCreateEntity h entity) w1)) as [t Ht].
        rewrite Ht. discriminate.
    - destruct (rethrow_classified_throws (A:=option obj) e w1) as [t Ht].
      rewrite Ht. discriminate. }
  destruct (options_createTableIfNotExists this) eqn:Hopt.
  - rewrite (create_provisioned entity w Hopt).
    destruct (createTableIfNotExists backend this _ w) as [[res|t] w0]; [|discriminate].
    apply Hwrite.
  - rewrite (create_write entity w Hopt). apply Hwrite.
Qed.

End RepositoryFacts.

(* ================================================================= *)
(** ** The connection service *)

Section ServiceFacts.

Variable backend : Backend.

Lemma built_service_app (l l' : list Construction) :
  built_service (l ++ l') = (built_service l ++ built_service l')%list.
Proof.
  induction l as [|[c|c] l IH]; simpl; [reflexivity | now rewrite IH | exact IH].
Qed.

Lemma built_table_app (l l' : list Construction) :
  built_table (l ++ l') = (built_table l ++ built_table l')%list.
Proof.
  induction l as [|[c|c] l IH]; simpl; [reflexivity | exact IH | now rewrite IH].
Qed.

Lemma memoised_new_world (env : option string) (tn : string) :
  memoised (new_world env tn).
Proof. split; reflexivity. Qed.

Lemma access_service (w : World) :
  Service.access backend ServiceHandle w =
    match Service.tableServiceClientInstance backend w with
    | (Returned c, w1) => (Returned (IsService c), w1)
    | (Threw e, w1) => (Threw e, w1)
    end.
Proof.
  unfold Service.access, bind, ret.
  destruct (Service.tableServiceClientInstance backend w) as [[c|e] w1]; reflexivity.
Qed.

Lemma access_entity (w : World) :
  Service.access backend EntityHandle w =
    match Service.tableClientInstance backend w with
    | (Returned c, w1) => (Returned (IsEntity c), w1)
    | (Threw e, w1) => (Threw e, w1)
    end.
Proof.
  unfold Service.access, bind, ret.
  destruct (Service.tableClientInstance backend w) as [[c|e] w1]; reflexivity.
Qed.

(** A read that throws builds and caches nothing. *)
Lemma access_throws (a : accessor) (w w1 : World) (e : RestError) :
  Service.access backend a w = (Threw e, w1) -> w1 = w.
Proof.
  destruct a; [rewrite access_service | rewrite access_entity].
  - destruct (Service.tableServiceClientInstance backend w) as [[c|e'] w'] eqn:E;
      intros H; inversion H; subst.
    now apply (tableServiceClientInstance_throws backend w w1 e).
  - destruct (Service.tableClientInstance backend w) as [[c|e'] w'] eqn:E;
      intros H; inversion H; subst.
    now apply (tableClientInstance_throws backend w w1 e).
Qed.

(** The getters keep the memoisation invariant. *)
Lemma tableServiceClientInstance_memoised (w : World) :
  memoised w -> memoised (snd (Service.tableServiceClientInstance backend w)).
Proof.
  intros [Hs Ht]. unfold memoised, Service.tableServiceClientInstance.
  destruct (tableServiceClient (manager w)) as [c|] eqn:E; simpl.
  - rewrite E. now split.
  - destruct (serviceClientFromConnectionString backend _); simpl.
    + rewrite E. now split.
    + rewrite built_service_app, built_table_app, Hs, Ht. simpl.
      rewrite app_nil_r. now split.
Qed.

Lemma tableClientInstance_memoised (w : World) :
  memoised w -> memoised (snd (Service.tableClientInstance backend w)).
Proof.
  intros [Hs Ht]. unfold memoised, Service.tableClientInstance.
  destruct (tableClient (manager w)) as [c|] eqn:E; simpl.
  - rewrite E. now split.
  - destruct (tableClientFromConnectionString backend _ _ _); simpl.
    + rewrite E. now split.
    + rewrite built_service_app, built_table_app, Hs, Ht. simpl.
      rewrite app_nil_r. now split.
Qed.

Lemma access_memoised (a : accessor) (w : World) :
  memoised w -> memoised (snd (Service.access backend a w)).
Proof.
  intros Hw. destruct a; [rewrite access_service | rewrite access_entity].
  - pose proof (tableServiceClientInstance_memoised w Hw) as H.
    destruct (Service.tableServiceClientInstance backend w) as [[c|e] w1]; exact H.
  - pose proof (tableClientInstance_memoised w Hw) as H.
    destruct (Service.tableClientInstance backend w) as [[c|e] w1]; exact H.
Qed.



(** The fields after a read, by cases on its outcome. *)
Lemma access_fields (a : accessor) (w : World) :
  match Service.access backend a w with
  | (Returned (IsService c), w1) =>
      tableServiceClient (manager w1) = Some c
      /\ tableClient (manager w1) = tableClient (manager w)
      /\ (forall c0, tableServiceClient (manager w) = Some c0 -> c0 = c /\ w1 = w)
  | (Returned (IsEntity c), w1) =>
      tableClient (manager w1) = Some c
      /\ tableServiceClient (manager w1) = tableServiceClient (manager w)
      /\ (forall c0, tableClient (manager w) = Some c0 -> c0 = c /\ w1 = w)
  | (Threw _, w1) => w1 = w
  end.
Proof.
  destruct (Service.access backend a w) as [[[c|c]|e] w1] eqn:E.
  - destruct a; [rewrite access_service in E | rewrite access_entity in E].
    + destruct (Service.tableServiceClientInstance backend w) as [[c'|e] w'] eqn:G;
        inversion E; subst.
      destruct (tableServiceClientInstance_returns backend w w1 c G)
        as (H1 & H2 & _ & H3 & _).
      split; [exact H1 | split; [exact H2 | exact H3]].
    + destruct (Service.tableClientInstance backend w) as [[c'|e] w']; discriminate.
  - destruct a; [rewrite access_service in E | rewrite access_entity in E].
    + destruct (Service.tableServiceClientInstance backend w) as [[c'|e] w']; discriminate.
    + destruct (Service.tableClientInstance backend w) as [[c'|e] w'] eqn:G;
        inversion E; subst.
      destruct (tableClientInstance_returns backend w w1 c G)
        as (H1 & H2 & _ & H3 & _).
      split; [exact H1 | split; [exact H2 | exact H3]].
  - now apply (access_throws a w w1 e).
Qed.



Lemma access_all_cons (a : accessor) (rest : list accessor) (w : World) :
  Service.access_all backend (a :: rest) w =
    (fst (Service.access backend a w)
       :: fst (Service.access_all backend rest (snd (Service.access backend a w))),
     snd (Service.access_all backend rest (snd (Service.access backend a w)))).
Proof.
  simpl. destruct (Service.access backend a w) as [h w1]. simpl.
  destruct (Service.access_all backend rest w1); reflexivity.
Qed.

Lemma access_all_memoised (trace : list accessor) (w : World) :
  memoised w -> memoised (snd (Service.access_all backend trace w)).
Proof.
  revert w. induction trace as [|a rest IH]; intros w Hw; [exact Hw|].
  rewrite access_all_cons. simpl. apply IH. now apply access_memoised.
Qed.




(** Every entity client the getter builds allows insecure connections. *)
Lemma access_flag (a : accessor) (w : World) :
  (forall c, In c (built_table (constructions w)) ->
             tc_allowInsecureConnection c = true) ->
  forall c, In c (built_table (constructions (snd (Service.access backend a w)))) ->
            tc_allowInsecureConnection c = true.
Proof.
  intros Hw c.
  destruct a; [rewrite access_service | rewrite access_entity].
  - unfold Service.tableServiceClientInstance.
    destruct (tableServiceClient (manager w)); simpl; [apply Hw|].
    destruct (serviceClientFromConnectionString backend _); simpl; [apply Hw|].
    rewrite built_table_app. simpl. rewrite app_nil_r. apply Hw.
  - unfold Service.tableClientInstance.
    destruct (tableClient (manager w)); simpl; [apply Hw|].
    destruct (tableClientFromConnectionString backend _ _ _); simpl; [apply Hw|].
    rewrite built_table_app. simpl. intros Hin.
    apply in_app_or in Hin as [Hin|[<-|[]]]; [now apply Hw | reflexivity].
Qed.

Lemma access_all_flag (trace : list accessor) (w : World) :
  (forall c, In c (built_table (constructions w)) ->
             tc_allowInsecureConnection c = true) ->
  forall c, In c (built_table
                    (constructions (snd (Service.access_all backend trace w)))) ->
            tc_allowInsecureConnection c = true.
Proof.
  revert w. induction trace as [|a rest IH]; intros w Hw; [exact Hw|].
  rewrite access_all_cons. simpl. apply IH. now apply access_flag.
Qed.

End ServiceFacts.

(* ================================================================= *)
(** ** The connection service: the handles *)



(** C4 (as stated, refuted): under a configuration whose
    insecure-connection flag is off, the entity handle is still built
    with the flag on; the flag of the handle is not the flag of the
    configuration. *)
Lemma C4_counterexample :
  cfg_allowInsecureConnection Examples.insecure_forbidden = false
  /\ fst (Service.tableClientInstance Examples.backend
            (configure Examples.insecure_forbidden))
     = Returned Examples.entity_client
  /\ tc_allowInsecureConnection Examples.entity_client = true
  /\ tc_allowInsecureConnection Examples.entity_client
     <> cfg_allowInsecureConnection Examples.insecure_forbidden.
Proof. repeat split; discriminate. Qed.

(** C4 (amended): for every connection configuration, the entity
    handle's factory is called with the configured connection string
    and table name and with the insecure-connection flag [true],
    whatever the configuration says: if the factory throws, the getter
    throws the same and nothing is built; if it accepts, the handle
    built has the flag set to [true].  In every run of accessor calls
    every entity handle built has the flag set to [true]. *)
Theorem C4_entity_handle_always_allows_insecure
    (backend : Backend) (cfg : ConnectionConfiguration) :
  match tableClientFromConnectionString backend
          (cfg_connectionString cfg) (cfg_tableName cfg) true with
  | Some e =>
      Service.tableClientInstance backend (configure cfg) = (Threw e, configure cfg)
  | None =>
      exists c w',
        Service.tableClientInstance backend (configure cfg) = (Returned c, w')
        /\ constructions w' = [BuiltTableClient c]
        /\ tc_allowInsecureConnection c = true
        /\ tc_connectionString c = cfg_connectionString cfg
        /\ tc_tableName c = cfg_tableName cfg
  end
  /\ (forall trace c,
         In c (built_table
                 (constructions
                    (snd (Service.access_all backend trace (configure cfg))))) ->
         tc_allowInsecureConnection c = true).
Proof.
  split.
  - unfold Service.tableClientInstance, configure. simpl.
    destruct (tableClientFromConnectionString backend _ _ _); [reflexivity|].
    eexists. eexists. split; [reflexivity|]. repeat split.
  - intros trace. apply access_all_flag. intros c [].
Qed.



(* ================================================================= *)
(** ** The repository methods *)

(** C5: [createTableIfNotExists] either returns [true] or throws; it
    never returns [null] or [false].  Hence [create] never returns
    [null]: whenever it returns, the provisioning (if enabled) returned
    [true], the backend's [createEntity] was called and answered, and
    the value returned is the mapped answer. *)
Theorem C5_provisioning_returns_true_or_throws
    (serialize : obj -> obj) (backend : Backend) (this : Repository) :
  (forall name w,
      fst (createTableIfNotExists backend this name w) = Returned (Some true)
      \/ exists t, fst (createTableIfNotExists backend this name w) = Threw t)
  /\ (forall entity w,
         fst (create serialize backend this entity w) <> Returned None)
  /\ (forall entity w r w',
         create serialize backend this entity w = (Returned r, w') ->
         exists h result prior,
           createEntity backend h entity = Ok result
           /\ r = Some (serialize result)
           /\ calls w' = (prior ++ [CallCreateEntity h entity])%list).
Proof.
  split; [|split].
  - intros name w. rewrite createTableIfNotExists_unfold.
    destruct (Service.tableServiceClientInstance backend w) as [[h|e0] w1].
    + cbv zeta. destruct (createTable backend h name) as [u|e].
      * left. reflexivity.
      * right.
        destruct (rethrow_classified_throws this (A:=option bool) e
                    (log_call (CallCreateTable h name) w1)) as [t Ht].
        exists t. now rewrite Ht.
    + right.
      destruct (rethrow_classified_throws this (A:=option bool) e0 w1) as [t Ht].
      exists t. now rewrite Ht.
  - intros entity w H.
    destruct (create serialize backend this entity w) as [o w'] eqn:E.
    simpl in H. subst o.
    destruct (create_returns serialize backend this entity w None w' E)
      as (h & result & prior & _ & Hr & _).
    discriminate.
  - intros entity w r w'. apply create_returns.
Qed.

(** C1 (as stated, refuted): the backend's [getEntity] raises a
    structured error with detail code [ResourceNotFound], and [find]
    does not return [null]: it throws the classified domain error. *)
Lemma C1_counterexample :
  fst (Service.tableClientInstance Examples.backend Examples.world)
    = Returned Examples.entity_client
  /\ getEntity Examples.backend Examples.entity_client "users" "404"
     = Fail Examples.not_found_error
  /\ startsWith_brace (rest_message Examples.not_found_error) = true
  /\ odata_field Examples.not_found_error "code" = Some (JStr "ResourceNotFound")
  /\ fst (find (strip_metadata []) Examples.backend Examples.repository
            "users" "404" Examples.world)
     = Threw (ThrownCustom
                (mkCustomError "Error processing entity. Entity not found."
                   (JStr "ResourceNotFound") (Some 404%Z)))
  /\ fst (find (strip_metadata []) Examples.backend Examples.repository
            "users" "404" Examples.world)
     <> Returned None.
Proof. repeat split; discriminate. Qed.

(** C1 (amended): for every call [find(partitionKey, rowKey)] where
    the backend's [getEntity] raises a structured error whose detail
    code is [ResourceNotFound], [find] returns nothing: it throws the
    domain error with the message "Error processing entity. Entity not
    found.", the code [ResourceNotFound] and the backend's status
    code. *)
Theorem C1_find_ResourceNotFound_throws_domain_error
    (serialize : obj -> obj) (backend : Backend) (this : Repository)
    (partitionKey rowKey : string) (w w1 : World) (h : TableClient)
    (e : RestError) :
  Service.tableClientInstance backend w = (Returned h, w1) ->
  getEntity backend h partitionKey rowKey = Fail e ->
  startsWith_brace (rest_message e) = true ->
  odata_field e "code" = Some (JStr "ResourceNotFound") ->
  find serialize backend this partitionKey rowKey w =
    (Threw (ThrownCustom
              (mkCustomError "Error processing entity. Entity not found."
                 (JStr "ResourceNotFound") (rest_statusCode e))),
     log_call (CallGetEntity h partitionKey rowKey) w1).
Proof.
  intros Hh Hget Hs Hc. rewrite find_unfold, Hh. cbv zeta.
  rewrite Hget. unfold rethrow_classified.
  rewrite (handleRestErrors_structured _ e _ Hs Hc). reflexivity.
Qed.

Lemma C1_witness :
  find (strip_metadata []) Examples.backend Examples.repository "users" "404"
    Examples.world =
    (Threw (ThrownCustom
              (mkCustomError "Error processing entity. Entity not found."
                 (JStr "ResourceNotFound")
                 (rest_statusCode Examples.not_found_error))),
     log_call (CallGetEntity Examples.entity_client "users" "404")
       (snd (Service.tableClientInstance Examples.backend Examples.world))).
Proof.
  apply (C1_find_ResourceNotFound_throws_domain_error (strip_metadata [])
           Examples.backend Examples.repository "users" "404" Examples.world
           (snd (Service.tableClientInstance Examples.backend Examples.world))
           Examples.entity_client Examples.not_found_error); reflexivity.
Defined.

(** When the listing ends without error, [findAll] returns the raw
    records as listed. *)
Lemma findAll_returns_listing (backend : Backend) (this : Repository)
    (queryOptions : jsval) (w w1 : World) (h : TableClient) :
  Service.tableClientInstance backend w = (Returned h, w1) ->
  snd (listEntities backend h queryOptions) = None ->
  fst (findAll backend this queryOptions w) =
    Returned (fst (listEntities backend h queryOptions)).
Proof.
  intros Hh Hend. rewrite findAll_unfold, Hh. cbv zeta.
  rewrite Hend, drain_all. reflexivity.
Qed.

(** C3 (the code departs from it): on a table holding
    [Examples.stored_record], [findAll] returns the raw record of the
    listing, ETag included, and not the record the mapper would make of
    it. *)
Theorem C3_findAll_returns_unmapped_records :
  fst (findAll Examples.backend Examples.repository JUndefined Examples.world)
    = Returned [Examples.stored_record]
  /\ lookup "etag" Examples.stored_record = Some (JStr "W/datetime'2024-01-01'")
  /\ map (strip_metadata ["partitionKey"; "rowKey"; "name"]) [Examples.stored_record]
     = [[ ("partitionKey", JStr "users"); ("rowKey", JStr "42"); ("name", JStr "Ada") ]]
  /\ fst (findAll Examples.backend Examples.repository JUndefined Examples.world)
     <> Returned (map (strip_metadata ["partitionKey"; "rowKey"; "name"])
                    [Examples.stored_record]).
Proof. repeat split; discriminate. Qed.






(* ================================================================= *)
(** ** The repository only reaches the clients through the getters *)

Section KeepsMemoised.

Lemma keeps_ret {E A} (a : A) : keeps_memoised (ret (E:=E) a).
Proof. intros w Hw. exact Hw. Qed.

Lemma keeps_throw {E A} (e : E) : keeps_memoised (throw (A:=A) e).
Proof. intros w Hw. exact Hw. Qed.

Lemma keeps_bind {E A B} (m : M E A) (k : A -> M E B) :
  keeps_memoised m -> (forall a, keeps_memoised (k a)) ->
  keeps_memoised (bind m k).
Proof.
  intros Hm Hk w Hw. unfold bind. specialize (Hm w Hw).
  destruct (m w) as [[a|e] w1]; simpl in *; [now apply Hk | exact Hm].
Qed.

Lemma keeps_try_catch {E E' A} (m : M E A) (handler : E -> M E' A) :
  keeps_memoised m -> (forall e, keeps_memoised (handler e)) ->
  keeps_memoised (try_catch m handler).
Proof.
  intros Hm Hh w Hw. unfold try_catch. specialize (Hm w Hw).
  destruct (m w) as [[a|e] w1]; simpl in *; [exact Hm | now apply Hh].
Qed.

Lemma keeps_getter_service (backend : Backend) :
  keeps_memoised (Service.tableServiceClientInstance backend).
Proof. intros w Hw. now apply tableServiceClientInstance_memoised. Qed.

Lemma keeps_getter_entity (backend : Backend) :
  keeps_memoised (Service.tableClientInstance backend).
Proof. intros w Hw. now apply tableClientInstance_memoised. Qed.

Lemma keeps_await_backend {A} (c : BackendCall) (r : response A) :
  keeps_memoised (await_backend c r).
Proof. intros w Hw. unfold await_backend. destruct r; exact Hw. Qed.

Lemma keeps_rethrow_classified {A} (this : Repository) (e : RestError) :
  keeps_memoised (rethrow_classified this (A:=A) e).
Proof.
  unfold rethrow_classified.
  destruct (handleRestErrors (tableName this) e); apply keeps_throw.
Qed.

End KeepsMemoised.

#[local] Hint Resolve keeps_ret keeps_throw keeps_getter_service
  keeps_getter_entity keeps_await_backend keeps_rethrow_classified : memo.
#[local] Hint Extern 2 (keeps_memoised (bind _ _)) =>
  apply keeps_bind; [ | intro ] : memo.
#[local] Hint Extern 2 (keeps_memoised (try_catch _ _)) =>
  apply keeps_try_catch; [ | intro ] : memo.

Section OperationsKeepMemoised.

Variable serialize : obj -> obj.
Variable backend : Backend.
Variable this : Repository.

Lemma createTableIfNotExists_keeps (name : option string) :
  keeps_memoised (createTableIfNotExists backend this name).
Proof. unfold createTableIfNotExists. auto 10 with memo. Qed.

Lemma find_keeps (pk rk : string) :
  keeps_memoised (find serialize backend this pk rk).
Proof.
  unfold find. apply keeps_try_catch; [|auto with memo].
  apply keeps_bind; [auto with memo | intro h].
  apply keeps_bind; [auto with memo | intro result].
  destruct (Nat.eqb _ 0); auto with memo.
Qed.

Lemma findAll_keeps (queryOptions : jsval) :
  keeps_memoised (findAll backend this queryOptions).
Proof.
  unfold findAll. apply keeps_try_catch; [|auto with memo].
  apply keeps_bind; [auto with memo | intro h].
  intros w Hw. exact Hw.
Qed.

Lemma create_keeps (entity : obj) :
  keeps_memoised (create serialize backend this entity).
Proof.
  unfold create. destruct (options_createTableIfNotExists this).
  - apply keeps_bind; [apply createTableIfNotExists_keeps | intros [b|]];
      auto 10 with memo.
  - auto 10 with memo.
Qed.

Lemma update_keeps (pk rk : string) (entity : obj) :
  keeps_memoised (update serialize backend this pk rk entity).
Proof.
  unfold update. destruct (with_keys pk rk entity); auto 10 with memo.
Qed.

Lemma delete_keeps (pk rk : string) :
  keeps_memoised (delete backend this pk rk).
Proof. unfold delete. auto 10 with memo. Qed.

End OperationsKeepMemoised.

(* ================================================================= *)
(** ** More on the classifier *)

Section ClassifierOutcomes.

Variable tn : string.

(** What [handleRestErrors] throws itself is a plain [Error] with
    the raw message, or a [TypeError] of the runtime. *)
Lemma handleRestErrors_throws (error : RestError) (t : thrown) :
  handleRestErrors tn error = Threw t ->
  t = ThrownError (rest_message error) \/ t = ThrownTypeError.
Proof.
  unfold handleRestErrors.
  destruct (startsWith_brace (rest_message error)); simpl.
  - destruct (odata_field error "code") as [c|]; [|intros H; inversion H; now right].
    destruct (switch_errorCode tn error c); intros H; inversion H; now right.
  - intros H; inversion H; now left.
Qed.

Lemma has_newline_app (a b : string) :
  has_newline (a ++ b) = has_newline a || has_newline b.
Proof.
  induction a as [|c a IH]; simpl; [reflexivity|].
  now rewrite IH, orb_assoc.
Qed.

Lemma has_newline_concat (pieces : list string) :
  Forall (fun l => has_newline l = false) pieces ->
  has_newline (String.concat "" pieces) = false.
Proof.
  induction 1 as [|p rest Hp Hrest IH]; [reflexivity|].
  destruct rest as [|q rest']; [exact Hp|].
  change (String.concat "" (p :: q :: rest'))
    with (p ++ "" ++ String.concat "" (q :: rest')).
  rewrite !has_newline_app, Hp, IH. reflexivity.
Qed.

(** The message the [switch] makes for [InvalidInput]. *)
Lemma switch_errorCode_InvalidInput (error : RestError) :
  switch_errorCode tn error (JStr "InvalidInput") =
    match odata_message_lines error with
    | Some lines => Some (append_lines "Error creating entity:" lines)
    | None => None
    end.
Proof. reflexivity. Qed.

(** Outside [InvalidInput] the [switch] always produces a message. *)
Lemma switch_errorCode_total (error : RestError) (c : jsval) :
  c <> JStr "InvalidInput" -> switch_errorCode tn error c <> None.
Proof.
  intros Hc. destruct c as [| | | |s|]; try discriminate.
  unfold switch_errorCode.
  repeat match goal with
  | |- context [String.eqb s ?k] =>
      destruct (String.eqb_spec s k) as [E|_]; [try discriminate|]
  end; try discriminate.
  subst s. now destruct Hc.
Qed.

End ClassifierOutcomes.

(** X1: whenever the classifier returns a domain error, the raw
    message started with an opening brace, the error's code is the
    value read at [details.odataError.code] and its status code is the
    backend's. *)
Theorem classifier_result_carries_code_and_status
    (tn : string) (error : RestError) (c : CustomError) :
  handleRestErrors tn error = Returned c ->
  startsWith_brace (rest_message error) = true
  /\ odata_field error "code" = Some (code c)
  /\ statusCode c = rest_statusCode error.
Proof.
  unfold handleRestErrors.
  destruct (startsWith_brace (rest_message error)); simpl; [|discriminate].
  destruct (odata_field error "code") as [errorCode|]; [|discriminate].
  destruct (switch_errorCode tn error errorCode); [|discriminate].
  intros H. inversion H. now repeat split.
Qed.

Lemma classifier_result_carries_code_and_status_witness :
  startsWith_brace (rest_message Examples.not_found_error) = true
  /\ odata_field Examples.not_found_error "code"
     = Some (code (mkCustomError "Error processing entity. Entity not found."
                     (JStr "ResourceNotFound") (Some 404%Z)))
  /\ statusCode (mkCustomError "Error processing entity. Entity not found."
                   (JStr "ResourceNotFound") (Some 404%Z))
     = rest_statusCode Examples.not_found_error.
Proof.
  apply (classifier_result_carries_code_and_status "people"
           Examples.not_found_error).
  reflexivity.
Defined.

(** X2: for a raw error whose message starts with an opening brace,
    the classifier fails with a [TypeError] exactly when the detail code
    cannot be read ([details] or [details.odataError] is [undefined] or
    [null]) or the code is [InvalidInput] and
    [details.odataError.message.value] is not a string that can be
    split; in every other case it returns a domain error. *)
Theorem classifier_TypeError_iff_payload_unreadable
    (tn : string) (error : RestError) :
  startsWith_brace (rest_message error) = true ->
  (handleRestErrors tn error = Threw ThrownTypeError
   <-> (odata_field error "code" = None
        \/ (odata_field error "code" = Some (JStr "InvalidInput")
            /\ odata_message_lines error = None)))
  /\ (rest_details error = JUndefined \/ rest_details error = JNull ->
      handleRestErrors tn error = Threw ThrownTypeError)
  /\ ((exists c, handleRestErrors tn error = Returned c)
      \/ handleRestErrors tn error = Threw ThrownTypeError).
Proof.
  intros Hs.
  assert (Hiff : handleRestErrors tn error = Threw ThrownTypeError
                 <-> (odata_field error "code" = None
                      \/ (odata_field error "code" = Some (JStr "InvalidInput")
                          /\ odata_message_lines error = None))).
  { unfold handleRestErrors. rewrite Hs. cbn [negb].
    destruct (odata_field error "code") as [c|] eqn:Ec.
    - destruct (switch_errorCode tn error c) as [m|] eqn:Em.
      + split; [discriminate|].
        intros [H|[H Hl]]; [discriminate|].
        inversion H; subst c.
        rewrite switch_errorCode_InvalidInput, Hl in Em. discriminate.
      + split; [|reflexivity]. intros _. right.
        assert (c = JStr "InvalidInput") as ->.
        { destruct c as [| | | |s|]; try discriminate.
          destruct (String.eqb_spec s "InvalidInput") as [->|Hne]; [reflexivity|].
          exfalso. apply (switch_errorCode_total tn error (JStr s)); [|exact Em].
          intros H. inversion H. contradiction. }
        split; [reflexivity|].
        rewrite switch_errorCode_InvalidInput in Em.
        destruct (odata_message_lines error); [discriminate | reflexivity].
    - split; [now left | reflexivity]. }
  split; [exact Hiff|]. split.
  - intros Hd. apply Hiff. left. unfold odata_field.
    destruct Hd as [-> | ->]; reflexivity.
  - unfold handleRestErrors. rewrite Hs. cbn [negb].
    destruct (odata_field error "code") as [c|]; [|now right].
    destruct (switch_errorCode tn error c); [left; eexists; reflexivity | now right].
Qed.

Lemma classifier_TypeError_iff_payload_unreadable_witness :
  handleRestErrors "people" Scenarios.bare_json_error = Threw ThrownTypeError.
Proof.
  apply (classifier_TypeError_iff_payload_unreadable "people"
           Scenarios.bare_json_error); [reflexivity|].
  left. reflexivity.
Defined.

(** X3: the message of a domain error made for the code
    [InvalidInput] holds no line break: the lines of the backend's
    message are glued to the prefix without separator. *)
Theorem InvalidInput_message_is_one_line
    (tn : string) (error : RestError) (c : CustomError) :
  handleRestErrors tn error = Returned c ->
  code c = JStr "InvalidInput" ->
  has_newline (message c) = false
  /\ exists body,
       odata_message_value error = Some (JStr body)
       /\ message c
          = "Error creating entity:" ++ String.concat "" (split_newline body).
Proof.
  intros Hret Hcode.
  unfold handleRestErrors in Hret.
  destruct (startsWith_brace (rest_message error)); simpl in Hret; [|discriminate].
  destruct (odata_field error "code") as [errorCode|]; [|discriminate].
  destruct (switch_errorCode tn error errorCode) as [m|] eqn:Em; [|discriminate].
  inversion Hret; subst c. simpl in *. subst errorCode.
  rewrite switch_errorCode_InvalidInput in Em.
  unfold odata_message_lines in Em.
  destruct (odata_message_value error) as [[| | | |body|]|]; try discriminate.
  inversion Em.
  rewrite append_lines_concat. split.
  - rewrite has_newline_app.
    rewrite (has_newline_concat _ (split_newline_pieces body)). reflexivity.
  - exists body. now split.
Qed.

Lemma InvalidInput_message_is_one_line_witness :
  has_newline
    "Error creating entity:One of the request inputs is not valid.RequestId:7f3aTime:2024-01-01T00:00:00Z"
  = false.
Proof.
  refine (proj1 (InvalidInput_message_is_one_line "people"
                   Examples.invalid_input_error
                   (mkCustomError
                      "Error creating entity:One of the request inputs is not valid.RequestId:7f3aTime:2024-01-01T00:00:00Z"
                      (JStr "InvalidInput") (Some 400%Z)) _ _));
    reflexivity.
Defined.

(** X4: for a structured error whose detail code is one of the five
    fixed-text case labels, the domain error's message is the fixed
    text of that case (with the repository's table name in the three
    table cases), whatever the backend's own message says; and every
    string code other than [InvalidInput] yields a domain error. *)
Theorem classifier_known_code_messages
    (tn : string) (error : RestError) (k : string) :
  startsWith_brace (rest_message error) = true ->
  odata_field error "code" = Some (JStr k) ->
  k <> "InvalidInput" ->
  exists m,
    handleRestErrors tn error
      = Returned (mkCustomError m (JStr k) (rest_statusCode error))
    /\ (k = "TableAlreadyExists" ->
        m = "Error creating table. Table " ++ tn ++ " already exists.")
    /\ (k = "TableNotFound" ->
        m = "Error creating entity. Table " ++ tn ++ " Not Found. Is it created?")
    /\ (k = "ResourceNotFound" ->
        m = "Error processing entity. Entity not found.")
    /\ (k = "TableBeingDeleted" ->
        m = "Error creating entity. Table " ++ tn ++ " is being deleted. Try again later.")
    /\ (k = "EntityAlreadyExists" ->
        m = "Error creating entity. Entity with the same partitionKey and rowKey already exists.").
Proof.
  intros Hs Hc Hne.
  rewrite (handleRestErrors_structured tn error _ Hs Hc).
  destruct (switch_errorCode tn error (JStr k)) as [m|] eqn:Em.
  - exists m. split; [reflexivity|].
    repeat split; intros ->; cbn in Em; now inversion Em.
  - exfalso. apply (switch_errorCode_total tn error (JStr k)); [|exact Em].
    intros H. inversion H. contradiction.
Qed.

Lemma classifier_known_code_messages_witness :
  handleRestErrors "people" Scenarios.table_exists_error
    = Returned (mkCustomError "Error creating table. Table people already exists."
                  (JStr "TableAlreadyExists") (Some 409%Z)).
Proof.
  destruct (classifier_known_code_messages "people" Scenarios.table_exists_error
              "TableAlreadyExists" eq_refl eq_refl)
    as (m & Hret & Hexists & _).
  - discriminate.
  - rewrite Hret, (Hexists eq_refl). reflexivity.
Defined.


(* ================================================================= *)
(** ** The state a method leaves *)

Section MethodWorlds.

Variable serialize : obj -> obj.
Variable backend : Backend.
Variable this : Repository.

Lemma createTableIfNotExists_world (name : option string) (w : World) :
  snd (createTableIfNotExists backend this name w) =
    match Service.tableServiceClientInstance backend w with
    | (Returned h, w1) => log_call (CallCreateTable h name) w1
    | (Threw _, w1) => w1
    end.
Proof.
  rewrite createTableIfNotExists_unfold.
  destruct (Service.tableServiceClientInstance backend w) as [[h|e] w1].
  - cbv zeta. destruct (createTable backend h name); [reflexivity|].
    apply rethrow_classified_world.
  - apply rethrow_classified_world.
Qed.

Lemma find_world (pk rk : string) (w : World) :
  snd (find serialize backend this pk rk w) =
    match Service.tableClientInstance backend w with
    | (Returned h, w1) => log_call (CallGetEntity h pk rk) w1
    | (Threw _, w1) => w1
    end.
Proof.
  rewrite find_unfold.
  destruct (Service.tableClientInstance backend w) as [[h|e] w1].
  - cbv zeta. destruct (getEntity backend h pk rk); [|apply rethrow_classified_world].
    destruct (Nat.eqb _ 0); reflexivity.
  - apply rethrow_classified_world.
Qed.

Lemma findAll_world (q : jsval) (w : World) :
  snd (findAll backend this q w) =
    match Service.tableClientInstance backend w with
    | (Returned h, w1) => log_call (CallListEntities h q) w1
    | (Threw _, w1) => w1
    end.
Proof.
  rewrite findAll_unfold.
  destruct (Service.tableClientInstance backend w) as [[h|e] w1].
  - cbv zeta. destruct (drain _ _ _); [reflexivity | apply rethrow_classified_world].
  - apply rethrow_classified_world.
Qed.

Lemma update_world (pk rk : string) (entity : obj) (w : World) :
  snd (update serialize backend this pk rk entity w) =
    match with_keys pk rk entity with
    | None => w
    | Some sent =>
        match Service.tableClientInstance backend w with
        | (Returned h, w1) => log_call (CallUpdateEntity h sent) w1
        | (Threw _, w1) => w1
        end
    end.
Proof.
  rewrite update_unfold.
  destruct (with_keys pk rk entity) as [sent|]; [|reflexivity].
  destruct (Service.tableClientInstance backend w) as [[h|e] w1].
  - cbv zeta. destruct (updateEntity backend h sent);
      [reflexivity | apply rethrow_classified_world].
  - apply rethrow_classified_world.
Qed.

Lemma delete_world (pk rk : string) (w : World) :
  snd (delete backend this pk rk w) =
    match Service.tableClientInstance backend w with
    | (Returned h, w1) => log_call (CallDeleteEntity h pk rk) w1
    | (Threw _, w1) => w1
    end.
Proof.
  rewrite delete_unfold.
  destruct (Service.tableClientInstance backend w) as [[h|e] w1].
  - cbv zeta. destruct (deleteEntity backend h pk rk);
      [reflexivity | apply rethrow_classified_world].
  - apply rethrow_classified_world.
Qed.

(** The write of [create], after the provisioning if any. *)
Lemma create_world (entity : obj) (w : World) :
  snd (create serialize backend this entity w) =
    let write w0 :=
      match Service.tableClientInstance backend w0 with
      | (Returned h, w1) => log_call (CallCreateEntity h entity) w1
      | (Threw _, w1) => w1
      end in
    if options_createTableIfNotExists this then
      match createTableIfNotExists backend this (Some (tableName this)) w with
      | (Threw _, w0) => w0
      | (Returned _, w0) => write w0
      end
    else write w.
Proof.
  cbv zeta.
  assert (Hwrite : forall w0,
             snd (match Service.tableClientInstance backend w0 with
                  | (Threw e, w1) => rethrow_classified this (A:=option obj) e w1
                  | (Returned h, w1) =>
                      let w2 := log_call (CallCreateEntity h entity) w1 in
                      match createEntity backend h entity with
                      | Ok result => (Returned (Some (serialize result)), w2)
                      | Fail e => rethrow_classified this e w2
                      end
                  end)
             = match Service.tableClientInstance backend w0 with
               | (Returned h, w1) => log_call (CallCreateEntity h entity) w1
               | (Threw _, w1) => w1
               end).
  { intros w0. destruct (Service.tableClientInstance backend w0) as [[h|e] w1].
    - cbv zeta. destruct (createEntity backend h entity);
        [reflexivity | apply rethrow_classified_world].
    - apply rethrow_classified_world. }
  destruct (options_createTableIfNotExists this) eqn:Hopt.
  - rewrite (create_provisioned serialize backend this entity w Hopt).
    destruct (createTableIfNotExists backend this _ w) as [[r|t] w0];
      [apply Hwrite | reflexivity].
  - rewrite (create_write serialize backend this entity w Hopt). apply Hwrite.
Qed.

End MethodWorlds.

(** X5: each of [createTableIfNotExists], [find], [findAll] and
    [delete] makes exactly one backend call, with the arguments it was
    given and on the client the service getter returns, whether that
    call succeeds or raises, when the getter returns; nothing is
    retried.  When the getter throws what the factory throws, the
    method makes no backend call and throws what its [catch] block makes
    of that error. *)
Theorem methods_make_one_backend_call_or_none
    (serialize : obj -> obj) (backend : Backend) (this : Repository) (w : World) :
  (forall name,
      match Service.tableServiceClientInstance backend w with
      | (Returned h, _) =>
          calls (snd (createTableIfNotExists backend this name w))
          = (calls w ++ [CallCreateTable h name])%list
      | (Threw e, _) =>
          createTableIfNotExists backend this name w
          = (Threw (surfaced (tableName this) e), w)
      end)
  /\ match Service.tableClientInstance backend w with
     | (Returned h, _) =>
         (forall pk rk,
             calls (snd (find serialize backend this pk rk w))
             = (calls w ++ [CallGetEntity h pk rk])%list)
         /\ (forall q,
                calls (snd (findAll backend this q w))
                = (calls w ++ [CallListEntities h q])%list)
         /\ (forall pk rk,
                calls (snd (delete backend this pk rk w))
                = (calls w ++ [CallDeleteEntity h pk rk])%list)
     | (Threw e, _) =>
         (forall pk rk,
             find serialize backend this pk rk w
             = (Threw (surfaced (tableName this) e), w))
         /\ (forall q,
                findAll backend this q w = (Threw (surfaced (tableName this) e), w))
         /\ (forall pk rk,
                delete backend this pk rk w
                = (Threw (surfaced (tableName this) e), w))
     end.
Proof.
  split.
  - intros name.
    pose proof (tableServiceClientInstance_calls backend w) as Hc.
    destruct (Service.tableServiceClientInstance backend w) as [[h|e] w1] eqn:E.
    + rewrite createTableIfNotExists_world, E. simpl in *. now rewrite Hc.
    + rewrite createTableIfNotExists_unfold, E, rethrow_classified_surfaced.
      now rewrite (tableServiceClientInstance_throws backend w w1 e E).
  - pose proof (tableClientInstance_calls backend w) as Hc.
    destruct (Service.tableClientInstance backend w) as [[h|e] w1] eqn:E.
    + repeat split; intros.
      * rewrite find_world, E. simpl in *. now rewrite Hc.
      * rewrite findAll_world, E. simpl in *. now rewrite Hc.
      * rewrite delete_world, E. simpl in *. now rewrite Hc.
    + rewrite (tableClientInstance_throws backend w w1 e E) in E.
      repeat split; intros.
      * now rewrite find_unfold, E, rethrow_classified_surfaced.
      * now rewrite findAll_unfold, E, rethrow_classified_surfaced.
      * now rewrite delete_unfold, E, rethrow_classified_surfaced.
Qed.

(** X6: no method ever throws the backend's own error object: what a
    caller catches from any of the six methods is a domain error, a
    plain [Error] or a [TypeError]. *)
Theorem methods_never_throw_the_backend_error
    (serialize : obj -> obj) (backend : Backend) (this : Repository)
    (w : World) (t : thrown) :
  (forall name, fst (createTableIfNotExists backend this name w) = Threw t ->
                is_backend_error t = false)
  /\ (forall pk rk, fst (find serialize backend this pk rk w) = Threw t ->
                    is_backend_error t = false)
  /\ (forall q, fst (findAll backend this q w) = Threw t ->
                is_backend_error t = false)
  /\ (forall entity, fst (create serialize backend this entity w) = Threw t ->
                     is_backend_error t = false)
  /\ (forall pk rk entity,
         fst (update serialize backend this pk rk entity w) = Threw t ->
         is_backend_error t = false)
  /\ (forall pk rk, fst (delete backend this pk rk w) = Threw t ->
                    is_backend_error t = false).
Proof.
  assert (Hre : forall A (e : RestError) (w' : World),
             fst (rethrow_classified this (A:=A) e w') = Threw t ->
             is_backend_error t = false).
  { intros A e w'. unfold rethrow_classified.
    destruct (handleRestErrors (tableName this) e) as [c|t'] eqn:Eh; simpl.
    - intros H. inversion H. reflexivity.
    - intros H. inversion H; subst t'.
      destruct (handleRestErrors_throws _ _ _ Eh) as [-> | ->]; reflexivity. }
  assert (Hprov : forall name w',
             fst (createTableIfNotExists backend this name w') = Threw t ->
             is_backend_error t = false).
  { intros name w'. rewrite createTableIfNotExists_unfold.
    destruct (Service.tableServiceClientInstance backend w') as [[h|e] w1];
      [|apply Hre].
    cbv zeta. destruct (createTable backend h name); [discriminate | apply Hre]. }
  assert (Hwrite : forall entity w0,
             fst (match Service.tableClientInstance backend w0 with
                  | (Threw e, w1) => rethrow_classified this (A:=option obj) e w1
                  | (Returned h, w1) =>
                      let w2 := log_call (CallCreateEntity h entity) w1 in
                      match createEntity backend h entity with
                      | Ok result => (Returned (Some (serialize result)), w2)
                      | Fail e => rethrow_classified this e w2
                      end
                  end) = Threw t ->
             is_backend_error t = false).
  { intros entity w0.
    destruct (Service.tableClientInstance backend w0) as [[h|e] w1]; [|apply Hre].
    cbv zeta. destruct (createEntity backend h entity); [discriminate | apply Hre]. }
  repeat split.
  - intros name. apply Hprov.
  - intros pk rk. rewrite find_unfold.
    destruct (Service.tableClientInstance backend w) as [[h|e] w1]; [|apply Hre].
    cbv zeta. destruct (getEntity backend h pk rk); [|apply Hre].
    destruct (Nat.eqb _ 0); discriminate.
  - intros q. rewrite findAll_unfold.
    destruct (Service.tableClientInstance backend w) as [[h|e] w1]; [|apply Hre].
    cbv zeta. destruct (drain _ _ _); [discriminate | apply Hre].
  - intros entity.
    destruct (options_createTableIfNotExists this) eqn:Hopt.
    + rewrite (create_provisioned serialize backend this entity w Hopt).
      destruct (createTableIfNotExists backend this _ w) as [[r|t'] w0] eqn:Ep.
      * apply Hwrite.
      * simpl. intros H. inversion H; subst t'.
        apply (Hprov (Some (tableName this)) w). now rewrite Ep.
    + rewrite (create_write serialize backend this entity w Hopt). apply Hwrite.
  - intros pk rk entity. rewrite update_unfold.
    destruct (with_keys pk rk entity) as [sent|].
    + destruct (Service.tableClientInstance backend w) as [[h|e] w1]; [|apply Hre].
      cbv zeta. destruct (updateEntity backend h _); [discriminate | apply Hre].
    + simpl. intros H. inversion H. reflexivity.
  - intros pk rk. rewrite delete_unfold.
    destruct (Service.tableClientInstance backend w) as [[h|e] w1]; [|apply Hre].
    cbv zeta. destruct (deleteEntity backend h pk rk); [discriminate | apply Hre].
Qed.

(* ================================================================= *)
(** ** What the methods return *)

(** X7: [find] returns [null] exactly when the getter returned the
    client, the backend answered the lookup and the mapped entity has no
    property at all, and it returns an entity exactly when the backend
    answered and the mapped entity, which is the value returned, has at
    least one property. *)
Theorem find_returns_null_iff_mapped_entity_empty
    (serialize : obj -> obj) (backend : Backend) (this : Repository)
    (pk rk : string) (w : World) :
  (fst (find serialize backend this pk rk w) = Returned None
   <-> exists h result,
         fst (Service.tableClientInstance backend w) = Returned h
         /\ getEntity backend h pk rk = Ok result
         /\ serialize result = [])
  /\ (forall mapped,
         fst (find serialize backend this pk rk w) = Returned (Some mapped)
         <-> exists h result,
               fst (Service.tableClientInstance backend w) = Returned h
               /\ getEntity backend h pk rk = Ok result
               /\ serialize result = mapped /\ mapped <> []).
Proof.
  rewrite find_unfold.
  destruct (Service.tableClientInstance backend w) as [[h|e0] w1]; simpl fst.
  - cbv zeta. destruct (getEntity backend h pk rk) as [result|e] eqn:Eg.
    + unfold entries_length.
      destruct (serialize result) as [|kv rest] eqn:Em; simpl.
      * split; [split|].
        -- intros _. exists h, result.
           split; [reflexivity|]. split; [exact Eg | exact Em].
        -- reflexivity.
        -- intros mapped. split; [discriminate|].
           intros (h' & r & Hh & Hr & Hm & Hne). inversion Hh; subst h'.
           rewrite Eg in Hr. inversion Hr; subst r.
           rewrite Em in Hm. now subst mapped.
      * split; [split|].
        -- discriminate.
        -- intros (h' & r & Hh & Hr & Hm). inversion Hh; subst h'.
           rewrite Eg in Hr. inversion Hr; subst r. rewrite Em in Hm. discriminate.
        -- intros mapped. split.
           ++ intros H. inversion H. exists h, result.
              split; [reflexivity|]. split; [exact Eg|].
              split; [exact Em | discriminate].
           ++ intros (h' & r & Hh & Hr & Hm & _). inversion Hh; subst h'.
              rewrite Eg in Hr. inversion Hr; subst r.
              rewrite Em in Hm. now subst mapped.
    + destruct (rethrow_classified_throws this (A:=option obj) e
                  (log_call (CallGetEntity h pk rk) w1)) as [t Ht].
      rewrite Ht. simpl.
      split; [split|]; try discriminate.
      * intros (h' & r & Hh & Hr & _). inversion Hh; subst h'.
        rewrite Eg in Hr. discriminate.
      * intros mapped. split; [discriminate|].
        intros (h' & r & Hh & Hr & _). inversion Hh; subst h'.
        rewrite Eg in Hr. discriminate.
  - destruct (rethrow_classified_throws this (A:=option obj) e0 w1) as [t Ht].
    rewrite Ht. simpl.
    split; [split|]; try discriminate.
    + intros (h' & r & Hh & _). discriminate.
    + intros mapped. split; [discriminate|].
      intros (h' & r & Hh & _). discriminate.
Qed.

(** X8: [findAll] is all or nothing.  When the listing ends without
    error it returns every listed record, in the order listed; when the
    listing raises an error, even after it has yielded records,
    [findAll] throws and none of the records read so far is returned. *)
Theorem findAll_returns_all_records_or_throws
    (backend : Backend) (this : Repository) (q : jsval) (w w1 : World)
    (h : TableClient) :
  Service.tableClientInstance backend w = (Returned h, w1) ->
  (snd (listEntities backend h q) = None ->
   fst (findAll backend this q w) = Returned (fst (listEntities backend h q)))
  /\ (forall e,
         snd (listEntities backend h q) = Some e ->
         fst (findAll backend this q w)
         = fst (rethrow_classified this (A:=list obj) e
                  (log_call (CallListEntities h q) w1))
         /\ exists t, fst (findAll backend this q w) = Threw t).
Proof.
  intros Hh. split.
  - now apply (findAll_returns_listing backend this q w w1 h).
  - intros e He. rewrite findAll_unfold, Hh. cbv zeta.
    rewrite He, drain_failure. split; [reflexivity|].
    destruct (rethrow_classified_throws this (A:=list obj) e
                (log_call (CallListEntities h q) w1)) as [t Ht].
    exists t. now rewrite Ht.
Qed.

Lemma findAll_returns_all_records_or_throws_witness :
  fst (findAll Examples.backend Examples.repository JUndefined Examples.world)
  = Returned [Examples.stored_record].
Proof.
  refine (proj1 (findAll_returns_all_records_or_throws Examples.backend
                   Examples.repository JUndefined Examples.world
                   (snd (Service.tableClientInstance Examples.backend Examples.world))
                   Examples.entity_client _) _);
    reflexivity.
Defined.

(** X9: with table provisioning enabled, when the backend's
    [createTable] raises an error, [create] throws what
    [createTableIfNotExists] throws and the entity is never written:
    the only backend call made is [createTable], and the entity client
    is not even built. *)
Theorem create_does_not_write_when_provisioning_fails
    (serialize : obj -> obj) (backend : Backend) (this : Repository)
    (entity : obj) (w w1 : World) (hs : TableServiceClient) (e : RestError) :
  options_createTableIfNotExists this = true ->
  Service.tableServiceClientInstance backend w = (Returned hs, w1) ->
  createTable backend hs (Some (tableName this)) = Fail e ->
  create serialize backend this entity w
    = rethrow_classified this e
        (log_call (CallCreateTable hs (Some (tableName this))) w1)
  /\ (exists t, fst (create serialize backend this entity w) = Threw t)
  /\ calls (snd (create serialize backend this entity w))
     = (calls w ++ [CallCreateTable hs (Some (tableName this))])%list
  /\ tableClient (manager (snd (create serialize backend this entity w)))
     = tableClient (manager w).
Proof.
  intros Hopt Hh Hfail.
  destruct (tableServiceClientInstance_returns backend w w1 hs Hh)
    as (_ & Hentity & Hcalls & _).
  assert (Hcreate : create serialize backend this entity w
            = rethrow_classified this e
                (log_call (CallCreateTable hs (Some (tableName this))) w1)).
  { rewrite (create_provisioned serialize backend this entity w Hopt).
    rewrite createTableIfNotExists_unfold, Hh. cbv zeta. rewrite Hfail.
    rewrite !rethrow_classified_surfaced. reflexivity. }
  rewrite Hcreate, rethrow_classified_surfaced. simpl.
  split; [reflexivity|]. split; [eexists; reflexivity|].
  split; [now rewrite Hcalls | exact Hentity].
Qed.

Lemma create_does_not_write_when_provisioning_fails_witness :
  fst (create (strip_metadata []) Scenarios.provisioned_backend Examples.repository
         Examples.patch Examples.world)
  = Threw (ThrownCustom
             (mkCustomError "Error creating table. Table people already exists."
                (JStr "TableAlreadyExists") (Some 409%Z)))
  /\ calls (snd (create (strip_metadata []) Scenarios.provisioned_backend
                   Examples.repository Examples.patch Examples.world))
     = [CallCreateTable Examples.service_client (Some "people")].
Proof.
  destruct (create_does_not_write_when_provisioning_fails (strip_metadata [])
              Scenarios.provisioned_backend Examples.repository Examples.patch
              Examples.world
              (snd (Service.tableServiceClientInstance Scenarios.provisioned_backend
                      Examples.world))
              Examples.service_client Scenarios.table_exists_error
              eq_refl eq_refl eq_refl)
    as (Hcreate & _ & Hcalls & _).
  split.
  - rewrite Hcreate. reflexivity.
  - rewrite Hcalls. reflexivity.
Defined.



(* ================================================================= *)
(** ** The entity [update] sends *)




(* ================================================================= *)
(** ** Sessions *)

Section SessionFacts.

Variable serialize : obj -> obj.
Variable backend : Backend.
Variable this : Repository.

(** A backend call on the entity client, after the getter. *)
Lemma entity_call_on_cached (w : World) (c : TableClient -> BackendCall) :
  (forall h, call_handle (c h) = IsEntity h) ->
  calls_on_cached w ->
  calls_on_cached
    match Service.tableClientInstance backend w with
    | (Returned h, w1) => log_call (c h) w1
    | (Threw _, w1) => w1
    end.
Proof.
  intros Hc Hw.
  destruct (Service.tableClientInstance backend w) as [[h|e] w1] eqn:E.
  - destruct (tableClientInstance_returns backend w w1 h E)
      as (Hcached & Hservice & Hcalls & Hsame & _).
    intros c0 Hin. simpl in *. rewrite Hcalls in Hin.
    apply in_app_or in Hin as [Hin|[<-|[]]].
    + specialize (Hw c0 Hin). destruct (call_handle c0) as [h0|h0].
      * now rewrite Hservice.
      * rewrite Hcached. f_equal. now destruct (Hsame h0 Hw).
    + now rewrite Hc.
  - now rewrite (tableClientInstance_throws backend w w1 e E).
Qed.

Lemma service_call_on_cached (w : World) (c : TableServiceClient -> BackendCall) :
  (forall h, call_handle (c h) = IsService h) ->
  calls_on_cached w ->
  calls_on_cached
    match Service.tableServiceClientInstance backend w with
    | (Returned h, w1) => log_call (c h) w1
    | (Threw _, w1) => w1
    end.
Proof.
  intros Hc Hw.
  destruct (Service.tableServiceClientInstance backend w) as [[h|e] w1] eqn:E.
  - destruct (tableServiceClientInstance_returns backend w w1 h E)
      as (Hcached & Hentity & Hcalls & Hsame & _).
    intros c0 Hin. simpl in *. rewrite Hcalls in Hin.
    apply in_app_or in Hin as [Hin|[<-|[]]].
    + specialize (Hw c0 Hin). destruct (call_handle c0) as [h0|h0].
      * rewrite Hcached. f_equal. now destruct (Hsame h0 Hw).
      * now rewrite Hentity.
    + now rewrite Hc.
  - now rewrite (tableServiceClientInstance_throws backend w w1 e E).
Qed.

Lemma run_operation_calls_on_cached (op : operation) (w : World) :
  calls_on_cached w ->
  calls_on_cached (run_operation serialize backend this op w).
Proof.
  intros Hw. destruct op; simpl.
  - rewrite createTableIfNotExists_world.
    now apply (service_call_on_cached w (fun h => CallCreateTable h name)).
  - rewrite find_world.
    now apply (entity_call_on_cached w
                 (fun h => CallGetEntity h partitionKey rowKey)).
  - rewrite findAll_world.
    now apply (entity_call_on_cached w (fun h => CallListEntities h queryOptions)).
  - rewrite create_world. cbv zeta.
    destruct (options_createTableIfNotExists this).
    + assert (H0 : calls_on_cached
                (snd (createTableIfNotExists backend this (Some (tableName this)) w))).
      { rewrite createTableIfNotExists_world.
        now apply (service_call_on_cached w
                     (fun h => CallCreateTable h (Some (tableName this)))). }
      destruct (createTableIfNotExists backend this (Some (tableName this)) w)
        as [[r|t] w0]; simpl in H0; [|exact H0].
      now apply (entity_call_on_cached w0 (fun h => CallCreateEntity h entity)).
    + now apply (entity_call_on_cached w (fun h => CallCreateEntity h entity)).
  - rewrite update_world.
    destruct (with_keys partitionKey rowKey entity) as [sent|]; [|exact Hw].
    now apply (entity_call_on_cached w (fun h => CallUpdateEntity h sent)).
  - rewrite delete_world.
    now apply (entity_call_on_cached w
                 (fun h => CallDeleteEntity h partitionKey rowKey)).
Qed.

Lemma run_operation_memoised (op : operation) (w : World) :
  memoised w -> memoised (run_operation serialize backend this op w).
Proof.
  intros Hw. destruct op; simpl.
  - now apply createTableIfNotExists_keeps.
  - now apply find_keeps.
  - now apply findAll_keeps.
  - now apply create_keeps.
  - now apply update_keeps.
  - now apply delete_keeps.
Qed.

Lemma run_operations_invariant (ops : list operation) (w : World) :
  memoised w -> calls_on_cached w ->
  memoised (run_operations serialize backend this ops w)
  /\ calls_on_cached (run_operations serialize backend this ops w).
Proof.
  unfold run_operations. revert w.
  induction ops as [|op rest IH]; intros w Hm Hc; simpl; [now split|].
  apply IH; [now apply run_operation_memoised | now apply run_operation_calls_on_cached].
Qed.

End SessionFacts.

(** X13: in every session, that is after any sequence of method
    calls on a repository whose service starts fresh, succeeding or
    throwing, at most one service client and at most one entity client
    have been built, and every backend call of the session was made on
    the client that the service caches. *)
Theorem session_uses_one_client_of_each_kind
    (serialize : obj -> obj) (backend : Backend) (this : Repository)
    (env : option string) (tn : string) (ops : list operation) :
  let w := run_operations serialize backend this ops (new_world env tn) in
  length (built_service (constructions w)) <= 1
  /\ length (built_table (constructions w)) <= 1
  /\ (forall h name, In (CallCreateTable h name) (calls w) ->
                     built_service (constructions w) = [h])
  /\ (forall c h, In c (calls w) -> call_handle c = IsEntity h ->
                  built_table (constructions w) = [h]).
Proof.
  cbv zeta.
  destruct (run_operations_invariant serialize backend this ops (new_world env tn))
    as [[Hs Ht] Hcalls].
  - apply memoised_new_world.
  - intros c [].
  - repeat split.
    + rewrite Hs. destruct (tableServiceClient _); simpl; lia.
    + rewrite Ht. destruct (tableClient _); simpl; lia.
    + intros h name Hin. specialize (Hcalls _ Hin). simpl in Hcalls.
      now rewrite Hs, Hcalls.
    + intros c h Hin Hh. specialize (Hcalls _ Hin). rewrite Hh in Hcalls.
      now rewrite Ht, Hcalls.
Qed.

Section Laziness.

Variable backend : Backend.

(** A read returns a handle of its own accessor. *)
Lemma access_all_kind (trace : list accessor) (w : World) :
  (forall c, In (Returned (IsService c)) (fst (Service.access_all backend trace w)) ->
             In ServiceHandle trace)
  /\ (forall c, In (Returned (IsEntity c)) (fst (Service.access_all backend trace w)) ->
                In EntityHandle trace).
Proof.
  revert w. induction trace as [|a rest IH]; intros w.
  - split; intros c [].
  - rewrite access_all_cons. simpl fst.
    destruct (IH (snd (Service.access backend a w))) as [IHs IHe].
    split; intros c [Hc|Hc].
    + destruct a; [now left|]. rewrite access_entity in Hc.
      destruct (Service.tableClientInstance backend w) as [[c'|e] w']; discriminate.
    + right. now apply (IHs c).
    + destruct a; [|now left]. rewrite access_service in Hc.
      destruct (Service.tableServiceClientInstance backend w) as [[c'|e] w'];
        discriminate.
    + right. now apply (IHe c).
Qed.

(** A field is unset after a run exactly when it was unset before and
    no read of its accessor returned. *)
Lemma access_all_unset (trace : list accessor) (w : World) :
  (tableServiceClient (manager (snd (Service.access_all backend trace w))) = None
   <-> tableServiceClient (manager w) = None
       /\ forall c, ~ In (Returned (IsService c))
                      (fst (Service.access_all backend trace w)))
  /\ (tableClient (manager (snd (Service.access_all backend trace w))) = None
      <-> tableClient (manager w) = None
          /\ forall c, ~ In (Returned (IsEntity c))
                         (fst (Service.access_all backend trace w))).
Proof.
  revert w. induction trace as [|a rest IH]; intros w.
  - simpl. split; split; try tauto; intros H; (split; [exact H | intros c []]).
  - rewrite access_all_cons. simpl fst. simpl snd.
    destruct (IH (snd (Service.access backend a w))) as [IHs IHe].
    rewrite IHs, IHe. clear IH IHs IHe.
    pose proof (access_fields backend a w) as F.
    destruct (Service.access backend a w) as [[[c|c]|e] w1]; simpl.
    + destruct F as (Fc & Fk & _). rewrite Fc, Fk. split; split.
      * intros [H _]. discriminate.
      * intros [_ H]. exfalso. apply (H c). now left.
      * intros [H1 H2]. split; [exact H1|].
        intros c0 [H|H]; [discriminate | now apply (H2 c0)].
      * intros [H1 H2]. split; [exact H1|]. intros c0 H. apply (H2 c0). now right.
    + destruct F as (Fc & Fk & _). rewrite Fc, Fk. split; split.
      * intros [H1 H2]. split; [exact H1|].
        intros c0 [H|H]; [discriminate | now apply (H2 c0)].
      * intros [H1 H2]. split; [exact H1|]. intros c0 H. apply (H2 c0). now right.
      * intros [H _]. discriminate.
      * intros [_ H]. exfalso. apply (H c). now left.
    + subst w1. split; split.
      * intros [H1 H2]. split; [exact H1|].
        intros c0 [H|H]; [discriminate | now apply (H2 c0)].
      * intros [H1 H2]. split; [exact H1|]. intros c0 H. apply (H2 c0). now right.
      * intros [H1 H2]. split; [exact H1|].
        intros c0 [H|H]; [discriminate | now apply (H2 c0)].
      * intros [H1 H2]. split; [exact H1|]. intros c0 H. apply (H2 c0). now right.
Qed.

End Laziness.

(** X14: the service builds its clients lazily and independently:
    after any run of accessor calls on a fresh service, a client has
    been built exactly when some read of its own accessor returned; in
    particular none is built before its accessor is first read, and
    none by a read that throws. *)
Theorem clients_are_built_by_their_own_accessor_only
    (backend : Backend) (env : option string) (tn : string)
    (trace : list accessor) :
  let run := Service.access_all backend trace (new_world env tn) in
  (built_service (constructions (snd run)) = []
   <-> forall c, ~ In (Returned (IsService c)) (fst run))
  /\ (built_table (constructions (snd run)) = []
      <-> forall c, ~ In (Returned (IsEntity c)) (fst run))
  /\ (~ In ServiceHandle trace -> built_service (constructions (snd run)) = [])
  /\ (~ In EntityHandle trace -> built_table (constructions (snd run)) = []).
Proof.
  cbv zeta.
  destruct (access_all_unset backend trace (new_world env tn)) as [Us Ue].
  destruct (access_all_kind backend trace (new_world env tn)) as [Ks Ke].
  pose proof (access_all_memoised backend trace _ (memoised_new_world env tn))
    as [Hs Ht].
  assert (Bs : built_service
                 (constructions
                    (snd (Service.access_all backend trace (new_world env tn)))) = []
               <-> forall c, ~ In (Returned (IsService c))
                               (fst (Service.access_all backend trace
                                       (new_world env tn)))).
  { rewrite Hs. destruct (tableServiceClient _) eqn:E.
    - split; [discriminate|]. intros H.
      assert (Hn : tableServiceClient (manager (new_world env tn)) = None
                   /\ forall c, ~ In (Returned (IsService c))
                                  (fst (Service.access_all backend trace
                                          (new_world env tn))))
        by (split; [reflexivity | exact H]).
      apply Us in Hn. congruence.
    - split; [|reflexivity]. intros _. now apply Us. }
  assert (Be : built_table
                 (constructions
                    (snd (Service.access_all backend trace (new_world env tn)))) = []
               <-> forall c, ~ In (Returned (IsEntity c))
                               (fst (Service.access_all backend trace
                                       (new_world env tn)))).
  { rewrite Ht. destruct (tableClient _) eqn:E.
    - split; [discriminate|]. intros H.
      assert (Hn : tableClient (manager (new_world env tn)) = None
                   /\ forall c, ~ In (Returned (IsEntity c))
                                  (fst (Service.access_all backend trace
                                          (new_world env tn))))
        by (split; [reflexivity | exact H]).
      apply Ue in Hn. congruence.
    - split; [|reflexivity]. intros _. now apply Ue. }
  split; [exact Bs|]. split; [exact Be|]. split.
  - intros Hno. apply Bs. intros c Hin. apply Hno. now apply (Ks c).
  - intros Hno. apply Be. intros c Hin. apply Hno. now apply (Ke c).
Qed.


(* ================================================================= *)
(** ** One failure path for all methods *)

